(** * auth-web-service: the account store and the request handlers

    A shallow embedding of [model/UserDatabase.js] (class [UserDatabase]) and
    of [server/Server.js] (class [Server]).

    - JavaScript values are the inductive [JsValue]; a document of the Mongo
      collection and a JSON body are objects, kept as finite maps from
      property names to values. Arrays are left out: the only array the code
      handles is the result of [split], a list of strings here.
    - The collection [users] is a list of documents, so that a state with
      several documents for one [_id] can be written down.
    - A promise is represented by the way it ends: resolved, rejected, or
      never settled.
    - [bcrypt] and the signing half of [jsonwebtoken] are libraries, taken
      through their contracts (classes [Bcrypt] and [Jws]); the time checks of
      [jsonwebtoken] are written out. *)

From Stdlib Require Import ZArith NArith Ascii String List Bool Lia.
From Stdlib Require Import DecimalString.
From stdpp Require Import base option list strings gmap fin_maps.

Set Warnings "-register-all".

Local Open Scope string_scope.
Local Open Scope Z_scope.

(** ** JavaScript values *)

Module Js.

Inductive JsValue : Type :=
| JsUndefined
| JsNull
| JsBool (b : bool)
| JsNumber (n : Z)
| JsString (s : string)
| JsObject (fields : gmap string JsValue).

(** [!v] is [negb (truthy v)]. Numbers are the integers a JSON body or a
    counter can hold, so the only falsy number is [0]. *)
Definition truthy (v : JsValue) : bool :=
  match v with
  | JsUndefined | JsNull => false
  | JsBool b => b
  | JsNumber n => negb (n =? 0)
  | JsString s => negb (String.eqb s "")
  | JsObject _ => true
  end.

(** [typeof v === "string"] *)
Definition is_string (v : JsValue) : bool :=
  match v with JsString _ => true | _ => false end.

(** [v === s] for a string literal [s] *)
Definition strict_eq_string (v : JsValue) (s : string) : bool :=
  match v with JsString s' => String.eqb s' s | _ => false end.

(** [v === b] for a boolean literal [b] *)
Definition strict_eq_bool (v : JsValue) (b : bool) : bool :=
  match v with JsBool b' => Bool.eqb b' b | _ => false end.

(** [v.k]: reading a property of an object; on a primitive other than
    [undefined] and [null] the read gives [undefined]. The handlers only read
    properties of values already known to be truthy. *)
Definition get_prop (v : JsValue) (k : string) : JsValue :=
  match v with
  | JsObject fields => default JsUndefined (fields !! k)
  | _ => JsUndefined
  end.

(** Decimal rendering of an integer, as [String(n)] prints it for an integer
    below [10^21] in absolute value; from there on JavaScript prints an
    exponent, and the statements that read the digits bound the number. *)
Definition string_of_Z (n : Z) : string :=
  NilZero.string_of_int (Z.to_int n).

(** [ToString] of the language, used by template literals and by
    [decodeURIComponent] on its argument. *)
Definition to_string (v : JsValue) : string :=
  match v with
  | JsUndefined => "undefined"
  | JsNull => "null"
  | JsBool true => "true"
  | JsBool false => "false"
  | JsNumber n => string_of_Z n
  | JsString s => s
  | JsObject _ => "[object Object]"
  end.

End Js.
Export Js.

(** ** Strings: [split], [toLowerCase], [decodeURIComponent] *)

Module Str.

(** [s.split(sep)] for a one-character separator: the pieces between the
    separators, empty pieces included; never the empty list. *)
Fixpoint split (sep : ascii) (s : string) : list string :=
  match s with
  | EmptyString => [EmptyString]
  | String c rest =>
      if Ascii.eqb c sep then EmptyString :: split sep rest
      else match split sep rest with
           | piece :: pieces => String c piece :: pieces
           | [] => [String c EmptyString]
           end
  end.

Definition lower_ascii (c : ascii) : ascii :=
  let n := N_of_ascii c in
  if ((65 <=? n) && (n <=? 90))%N then ascii_of_N (n + 32) else c.

(** [s.toLowerCase()] on the ASCII letters. No character outside ASCII
    lowercases to one of [b], [e], [a], [r], so the comparison with
    ["bearer"] is not affected by the other characters. *)
Fixpoint toLowerCase (s : string) : string :=
  match s with
  | EmptyString => EmptyString
  | String c rest => String (lower_ascii c) (toLowerCase rest)
  end.

Fixpoint no_space (s : string) : bool :=
  match s with
  | EmptyString => true
  | String c rest => negb (Ascii.eqb c " ") && no_space rest
  end.

(** The characters Node accepts in the value of a response header: the tab,
    U+0020 to U+007E and U+0080 to U+00FF; [setHeader] throws on any other.
    Strings are kept in UTF-8, where U+0080 to U+00FF are the two-byte
    sequences led by C2 and C3, and every character from U+0100 on has a lead
    byte above C3. *)
Definition header_char (c : ascii) : bool :=
  let n := N_of_ascii c in
  ((n =? 9) || ((32 <=? n) && (n <=? 126)) || ((128 <=? n) && (n <=? 195)))%N.

Fixpoint valid_header_value (s : string) : bool :=
  match s with
  | EmptyString => true
  | String c rest => header_char c && valid_header_value rest
  end.

Definition hex_digit (c : ascii) : option N :=
  let n := N_of_ascii c in
  if ((48 <=? n) && (n <=? 57))%N then Some (n - 48)%N
  else if ((65 <=? n) && (n <=? 70))%N then Some (n - 55)%N
  else if ((97 <=? n) && (n <=? 102))%N then Some (n - 87)%N
  else None.

(** One unit of the input of [decodeURIComponent]: a character standing for
    itself, or the octet of an escape [%XX]. *)
Inductive UriUnit : Type :=
| Plain (c : ascii)
| Escaped (octet : N).

(** First pass: every [%] must be followed by two hexadecimal digits. *)
Fixpoint uri_units (s : string) : option (list UriUnit) :=
  match s with
  | EmptyString => Some []
  | String "%" (String h (String l rest)) =>
      match hex_digit h, hex_digit l, uri_units rest with
      | Some a, Some b, Some us => Some (Escaped (16 * a + b)%N :: us)
      | _, _, _ => None
      end
  | String "%" _ => None
  | String c rest =>
      match uri_units rest with
      | Some us => Some (Plain c :: us)
      | None => None
      end
  end.

Definition continuation (b : N) : bool := ((128 <=? b) && (b <=? 191))%N.

(** Second pass: an escaped octet below 128 is its character; one with the
    high bit set must start a well-formed UTF-8 sequence whose other octets
    are escapes too. Strings are kept in UTF-8, so the octets of a decoded
    code point are appended as they are. *)
Fixpoint uri_decode_units (us : list UriUnit) : option string :=
  match us with
  | [] => Some EmptyString
  | Plain c :: rest => String c <$> uri_decode_units rest
  | Escaped b0 :: rest =>
      if (b0 <? 128)%N then String (ascii_of_N b0) <$> uri_decode_units rest
      else if ((194 <=? b0) && (b0 <=? 223))%N then
        match rest with
        | Escaped b1 :: rest1 =>
            if continuation b1
            then (fun s => String (ascii_of_N b0) (String (ascii_of_N b1) s))
                   <$> uri_decode_units rest1
            else None
        | _ => None
        end
      else if ((224 <=? b0) && (b0 <=? 239))%N then
        match rest with
        | Escaped b1 :: Escaped b2 :: rest2 =>
            if continuation b1 && continuation b2
               && negb ((b0 =? 224)%N && (b1 <? 160)%N)
               && negb ((b0 =? 237)%N && (160 <=? b1)%N)
            then (fun s => String (ascii_of_N b0) (String (ascii_of_N b1)
                             (String (ascii_of_N b2) s)))
                   <$> uri_decode_units rest2
            else None
        | _ => None
        end
      else if ((240 <=? b0) && (b0 <=? 244))%N then
        match rest with
        | Escaped b1 :: Escaped b2 :: Escaped b3 :: rest3 =>
            if continuation b1 && continuation b2 && continuation b3
               && negb ((b0 =? 240)%N && (b1 <? 144)%N)
               && negb ((b0 =? 244)%N && (144 <=? b1)%N)
            then (fun s => String (ascii_of_N b0) (String (ascii_of_N b1)
                             (String (ascii_of_N b2) (String (ascii_of_N b3) s))))
                   <$> uri_decode_units rest3
            else None
        | _ => None
        end
      else None
  end.

(** [decodeURIComponent(v)]: the argument is converted with [ToString]
    first; [None] stands for the [URIError] it throws. *)
Definition decodeURIComponent (v : JsValue) : option string :=
  uri_units (to_string v) ≫= uri_decode_units.

End Str.
Export Str.

(** ** Promises and the libraries *)

(** How a promise ends. [Pending] is a promise that is never settled: the
    executor of [new Promise] returned an inner chain that failed, and nothing
    calls [resolve] or [reject]. *)
Inductive Promise (A : Type) : Type :=
| Resolved (value : A)
| Rejected (message : string)
| Pending.
Arguments Resolved {A} value.
Arguments Rejected {A} message.
Arguments Pending {A}.

(** The contract of the [bcrypt] package: [bcrypt_hash password rounds salt]
    is the hash string [bcrypt.hash(password, rounds)] yields when it draws
    [salt]; [bcrypt_compare password hash] is what [bcrypt.compare] resolves
    to. A hash verifies the password it was made from. *)
Class Bcrypt : Type := {
  bcrypt_hash : string -> N -> string -> string;
  bcrypt_compare : string -> string -> bool;
  bcrypt_compare_hash : forall password rounds salt,
    bcrypt_compare password (bcrypt_hash password rounds salt) = true
}.

(** What a token of [jsonwebtoken] carries: the [id] of the payload [{id}]
    the server signs, and the registered claims [iat], [exp] and [nbf]. Times
    are in seconds, as the library reads the clock
    ([Math.floor(Date.now() / 1000)]). *)
Record JwtPayload : Type := {
  jwt_id : string;
  jwt_iat : option Z;
  jwt_exp : option Z;
  jwt_nbf : option Z
}.

(** The signing layer under [jsonwebtoken] (compact JWS with HS256):
    [jws_sign secret payload] is the token string, [jws_verify secret token]
    gives the payload back when the token is well formed and its signature is
    the one [secret] produces, and [None] otherwise. A token is a non-empty
    string without spaces. *)
Class Jws : Type := {
  jws_sign : string -> JwtPayload -> string;
  jws_verify : string -> string -> option JwtPayload;
  jws_verify_sign : forall secret payload,
    jws_verify secret (jws_sign secret payload) = Some payload;
  jws_sign_shape : forall secret payload,
    jws_sign secret payload <> "" /\ no_space (jws_sign secret payload) = true
}.

Module jwt.

(** [jwt.sign(payload, secret, {expiresIn})] at clock reading [now]: [iat]
    and [exp] are set, [nbf] is not. *)
Definition sign `{Jws} (now : Z) (id : string) (secret : string) (expiresIn : Z) : string :=
  jws_sign secret {| jwt_id := id; jwt_iat := Some now; jwt_exp := Some (now + expiresIn);
                     jwt_nbf := None |}.

(** [jwt.verify(token, secret, {maxAge})] at clock reading [now]: the payload,
    or the message of the error it throws. The signature is checked first,
    then [nbf] (a token is not active before it), then [exp], then the age
    against [maxAge] (a number of seconds); the library skips the age check
    when [maxAge] is falsy, that is [0]. *)
Definition verify `{Jws} (now : Z) (token secret : string) (maxAge : Z) : JwtPayload + string :=
  match jws_verify secret token with
  | None => inr "invalid token"
  | Some payload =>
      if match jwt_nbf payload with Some nbf => now <? nbf | None => false end
      then inr "jwt not active"
      else if match jwt_exp payload with Some exp => exp <=? now | None => false end
      then inr "jwt expired"
      else if maxAge =? 0 then inl payload
      else match jwt_iat payload with
           | None => inr "iat required when maxAge is specified"
           | Some iat =>
               if iat + maxAge <=? now then inr "maxAge exceeded" else inl payload
           end
  end.

End jwt.

(** ** model/UserDatabase.js *)

Abbreviation Doc := (gmap string JsValue).

Module UserDatabase.

(** The query [{_id: id}] on one document. *)
Definition matches_id (id : string) (doc : Doc) : bool :=
  match doc !! "_id" with
  | Some (JsString s) => String.eqb s id
  | _ => false
  end.

(** [users.find({_id: id}).toArray()] *)
Definition find (users : list Doc) (id : string) : list Doc :=
  List.filter (matches_id id) users.

(** [users.insertOne(doc)]: the collection with the document added, and the
    [insertedCount] of the result. It is only called after [find] returned no
    document for the [_id] of [doc], so the unique index on [_id] does not
    refuse it; the collection is taken to accept every document. *)
Definition insertOne (users : list Doc) (doc : Doc) : list Doc * Z :=
  ((users ++ [doc])%list, 1).

Definition invalid_parameters {A} : Promise A := Rejected "Invalid parameters".

Definition multiple_docs {A} (id : string) : Promise A :=
  Rejected ("Multiple docs found for user with id " ++ id).

(** [createUser(id, password, data)]; [salt] is the salt [bcrypt.hash] draws.
    Assigning [data._id] on a primitive throws in strict mode, inside the
    callback of [bcrypt.hash(...).then]: the promise stays pending. *)
Definition createUser `{Bcrypt} (users : list Doc) (salt : string)
    (id password data : JsValue) : list Doc * Promise JsValue :=
  if negb (truthy id) || negb (is_string id)
     || negb (truthy password) || negb (is_string password)
     || negb (truthy data)
  then (users, invalid_parameters)
  else
    match id, password with
    | JsString id_s, JsString password_s =>
        let docs := find users id_s in
        if (length docs =? 1)%nat then (users, Resolved (JsString "already exists"))
        else if (length docs =? 0)%nat then
          let hashedPassword := bcrypt_hash password_s 10 salt in
          match data with
          | JsObject fields =>
              let data' := <["_pw" := JsString hashedPassword]> (<["_id" := id]> fields) in
              let '(users', insertedCount) := insertOne users data' in
              if negb (insertedCount =? 1)
              then (users', Rejected "Did not insert 1 user")
              else (users', Resolved (JsBool true))
          | _ => (users, Pending)
          end
        else (users, multiple_docs id_s)
    | _, _ => (users, invalid_parameters)
    end.

(** [checkPassword(id, password)]. [bcrypt.compare] rejects when the stored
    [_pw] is not a string; that rejection is not forwarded to the promise
    returned, which stays pending. *)
Definition checkPassword `{Bcrypt} (users : list Doc)
    (id password : JsValue) : list Doc * Promise JsValue :=
  if negb (truthy id) || negb (is_string id)
     || negb (truthy password) || negb (is_string password)
  then (users, invalid_parameters)
  else
    match id, password with
    | JsString id_s, JsString password_s =>
        match find users id_s with
        | [doc] =>
            match get_prop (JsObject doc) "_pw" with
            | JsString hashedPassword =>
                if bcrypt_compare password_s hashedPassword
                then (users, Resolved (JsBool true))
                else (users, Resolved (JsBool false))
            | _ => (users, Pending)
            end
        | [] => (users, Resolved (JsString "not found"))
        | _ => (users, multiple_docs id_s)
        end
    | _, _ => (users, invalid_parameters)
    end.

(** [getUser(id)]: the two [delete]s act on the copy [find] returned. *)
Definition getUser (users : list Doc) (id : JsValue) : list Doc * Promise JsValue :=
  if negb (truthy id) || negb (is_string id)
  then (users, invalid_parameters)
  else
    match id with
    | JsString id_s =>
        match find users id_s with
        | [doc] => (users, Resolved (JsObject (delete "_pw" (delete "_id" doc))))
        | [] => (users, Resolved (JsString "not found"))
        | _ => (users, multiple_docs id_s)
        end
    | _ => (users, invalid_parameters)
    end.

End UserDatabase.

(** No document of the collection carries the identifier. *)
Definition absent (id : string) (users : list Doc) : Prop :=
  Forall (fun doc : Doc => doc !! "_id" <> Some (JsString id)) users.

(** The invariant of the data model: at most one document per identifier. *)
Definition unique_ids (users : list Doc) : Prop :=
  forall id : string, (length (UserDatabase.find users id) <= 1)%nat.

(** The document [createUser] builds from the caller's [data]. *)
Definition new_doc `{Bcrypt} (salt id password : string) (profile : Doc) : Doc :=
  <["_pw" := JsString (bcrypt_hash password 10 salt)]> (<["_id" := JsString id]> profile).

(** ** server/Server.js *)

(** The part of an Express request the handlers read: [req.params.id],
    [req.query.pw], [req.body], [req.header("authorization")] ([None] when the
    header is absent), [req.protocol] and [req.hostname]. *)
Record Request : Type := {
  params_id : JsValue;
  query_pw : JsValue;
  body : JsValue;
  authorization : option string;
  protocol : string;
  hostname : string
}.

(** What [res] has been given when the handler is done: the status code, the
    headers appended and the body sent. *)
Record Response : Type := {
  status : Z;
  headers : list (string * string);
  payload : JsValue
}.

(** How the handling of a request ends: a response was sent; nothing was
    sent, because the promise of the store never settled or no branch of the
    handler applied; or the handler threw before it sent anything. *)
Inductive Outcome : Type :=
| Responded (response : Response)
| NoResponse
| Threw (error : string).

(** The status code of the response, when one was sent. *)
Definition status_of (outcome : Outcome) : option Z :=
  match outcome with
  | Responded response => Some (status response)
  | _ => None
  end.

(** What a call reads from its surroundings: the clock of [jsonwebtoken] in
    seconds, and the salt [bcrypt] draws. *)
Record Env : Type := {
  now : Z;
  salt : string
}.

Module Server.

Definition OK : Z := 200.
Definition CREATED : Z := 201.
Definition SEE_OTHER : Z := 303.
Definition BAD_REQUEST : Z := 400.
Definition UNAUTHORIZED : Z := 401.
Definition NOT_FOUND : Z := 404.
Definition INTERNAL_SERVER_ERROR : Z := 500.

Definition authSecret : string := "superSecretString".

(** The fields the constructor sets; the store [userDb] is the collection
    passed to the handlers. *)
Record Server : Type := {
  port : Z;
  authTimeout : Z;
  keyPath : string;
  certPath : string
}.

Definition new (port authTimeout : Z) (sslDir : string) : Server :=
  {| port := port; authTimeout := authTimeout;
     keyPath := sslDir ++ "key.pem"; certPath := sslDir ++ "cert.pem" |}.

(** [res.status(code).send({status, info})] *)
Definition send_info (code : Z) (headers : list (string * string))
    (status info : string) : Outcome :=
  Responded {| status := code; headers := headers;
               payload := JsObject (<["status" := JsString status]>
                                    (<["info" := JsString info]> ∅)) |}.

(** [res.status(code).send({status, authToken})] *)
Definition send_token (code : Z) (headers : list (string * string))
    (status authToken : string) : Outcome :=
  Responded {| status := code; headers := headers;
               payload := JsObject (<["status" := JsString status]>
                                    (<["authToken" := JsString authToken]> ∅)) |}.

(** [res.json(result)] *)
Definition json (result : JsValue) : Outcome :=
  Responded {| status := OK; headers := []; payload := result |}.

Definition internal_server_error : Outcome :=
  send_info INTERNAL_SERVER_ERROR [] "ERROR_INTERNAL_SERVER_ERROR"
            "server encountered unexpected error".

Definition getRequestBaseUrl (this : Server) (req : Request) : string :=
  protocol req ++ "://" ++ hostname req ++ ":" ++ string_of_Z (port this) ++ "/".

Definition createAuthToken `{Jws} (this : Server) (env : Env) (id : string) : string :=
  jwt.sign (now env) id authSecret (authTimeout this).

(** The [try]/[catch] around [jwt.verify]: any error becomes [false]. *)
Definition checkAuthToken `{Jws} (this : Server) (env : Env) (authToken : string) : bool :=
  match jwt.verify (now env) authToken authSecret (authTimeout this) with
  | inl _ => true
  | inr _ => false
  end.

(** [arr[i]] on the array [split] returned *)
Definition index (arr : list string) (i : nat) : JsValue :=
  match arr !! i with
  | Some s => JsString s
  | None => JsUndefined
  end.

(** [createUser(req, res)]. Both branches of the [then] callback start with
    [res.append("Location", ...)]; when Node refuses the value the call
    throws there, and the [catch] of the same chain answers 500, after the
    store has done its work. *)
Definition createUser `{Bcrypt} `{Jws} (this : Server) (env : Env)
    (users : list Doc) (req : Request) : list Doc * Outcome :=
  match decodeURIComponent (params_id req) with
  | None => (users, Threw "URIError")
  | Some id =>
  match decodeURIComponent (query_pw req) with
  | None => (users, Threw "URIError")
  | Some password =>
      let body := body req in
      if negb (truthy (JsString id)) || negb (truthy (JsString password))
         || negb (truthy body)
      then (users, send_info BAD_REQUEST [] "ERROR_BAD_REQUEST"
                             "ID, password, or body is invalid")
      else
        let '(users', promise) :=
          UserDatabase.createUser users (salt env) (JsString id) (JsString password) body in
        match promise with
        | Resolved result =>
            let location := ("Location", getRequestBaseUrl this req ++ "users/" ++ id) in
            if negb (valid_header_value location.2)
            then (users', internal_server_error)
            else if strict_eq_string result "already exists"
            then (users', send_info SEE_OTHER [location] "EXISTS"
                                    ("user " ++ id ++ " already exists"))
            else (users', send_token CREATED [location] "CREATED"
                                     (createAuthToken this env id))
        | Rejected _ => (users', internal_server_error)
        | Pending => (users', NoResponse)
        end
  end
  end.

Definition logIn `{Bcrypt} `{Jws} (this : Server) (env : Env)
    (users : list Doc) (req : Request) : list Doc * Outcome :=
  match decodeURIComponent (params_id req) with
  | None => (users, Threw "URIError")
  | Some id =>
      let body := body req in
      if negb (truthy (JsString id)) || negb (truthy body)
      then (users, send_info BAD_REQUEST [] "ERROR_BAD_REQUEST" "ID or body is invalid")
      else if negb (truthy (get_prop body "pw"))
      then (users, send_info UNAUTHORIZED [] "ERROR_UNAUTHORIZED"
              ("/users/" ++ id ++ "/auth requires a valid 'pw' password query parameter"))
      else
        let '(users', promise) :=
          UserDatabase.checkPassword users (JsString id) (get_prop body "pw") in
        match promise with
        | Resolved result =>
            if strict_eq_string result "not found"
            then (users', send_info NOT_FOUND [] "ERROR_NOT_FOUND"
                                    ("user " ++ id ++ " not found"))
            else if strict_eq_bool result false
            then (users', send_info UNAUTHORIZED [] "ERROR_UNAUTHORIZED"
                    ("/users/" ++ id ++ "/auth requires a valid 'pw' password query parameter"))
            else if strict_eq_bool result true
            then (users', send_token OK [] "OK" (createAuthToken this env id))
            else (users', NoResponse)
        | Rejected _ => (users', internal_server_error)
        | Pending => (users', NoResponse)
        end
  end.

Definition unauthorized (id : string) : Outcome :=
  send_info UNAUTHORIZED [] "ERROR_UNAUTHORIZED"
            ("/users/" ++ id ++ " requires a bearer authorization header").

(** What [getUser] does once it holds a token string: verify it, then ask
    the store. *)
Definition getUser_with_token `{Jws} (this : Server) (env : Env)
    (users : list Doc) (id authToken : string) : list Doc * Outcome :=
  if checkAuthToken this env authToken
  then
    let '(users', promise) := UserDatabase.getUser users (JsString id) in
    match promise with
    | Resolved result =>
        if strict_eq_string result "not found"
        then (users', send_info NOT_FOUND [] "ERROR_NOT_FOUND"
                                ("user " ++ id ++ " not found"))
        else (users', json result)
    | Rejected _ => (users', internal_server_error)
    | Pending => (users', NoResponse)
    end
  else (users, unauthorized id).

(** [split] never returns an empty array, so [authValueSplit[0]] is a
    string; [authValueSplit[1]] is [undefined] when there is no second piece. *)
Definition getUser `{Jws} (this : Server) (env : Env)
    (users : list Doc) (req : Request) : list Doc * Outcome :=
  match decodeURIComponent (params_id req) with
  | None => (users, Threw "URIError")
  | Some id =>
      if negb (truthy (JsString id))
      then (users, send_info BAD_REQUEST [] "ERROR_BAD_REQUEST" "ID is invalid")
      else
        match authorization req with
        | None => (users, unauthorized id)
        | Some authValue =>
            let authValueSplit := split " " authValue in
            if negb (truthy (JsString authValue))
               || negb (String.eqb (toLowerCase (to_string (index authValueSplit 0))) "bearer")
               || negb (truthy (index authValueSplit 1))
            then (users, unauthorized id)
            else
              let authToken := to_string (index authValueSplit 1) in
              getUser_with_token this env users id authToken
        end
  end.

End Server.

(** ** A reference instance of the two library contracts

    The theorems below hold for every [Bcrypt] and every [Jws]. The instance
    here shows that the contracts can be met and lets the handlers be run on
    concrete requests. It keeps the password and the secret in clear, so it
    says nothing about secrecy. *)

Module Reference.

Definition hash (password : string) (rounds : N) (salt : string) : string :=
  password.

Definition compare (password hashed : string) : bool :=
  String.eqb password hashed.

(** A positive number written with the characters [0] and [1], lowest bit
    first, the leading one left out. *)
Fixpoint pos_bits (p : positive) : string :=
  match p with
  | xH => EmptyString
  | xO q => String "0" (pos_bits q)
  | xI q => String "1" (pos_bits q)
  end.

Fixpoint bits_pos (s : string) : option positive :=
  match s with
  | EmptyString => Some xH
  | String "0" rest => xO <$> bits_pos rest
  | String "1" rest => xI <$> bits_pos rest
  | String _ _ => None
  end.

Definition payload_tuple (payload : JwtPayload)
    : string * (option Z * (option Z * option Z)) :=
  (jwt_id payload, (jwt_iat payload, (jwt_exp payload, jwt_nbf payload))).

Definition tuple_payload (t : string * (option Z * (option Z * option Z))) : JwtPayload :=
  {| jwt_id := t.1; jwt_iat := t.2.1; jwt_exp := t.2.2.1; jwt_nbf := t.2.2.2 |}.

(** The token is the letter [t] followed by the bits of the code of the pair
    (secret, payload). *)
Definition sign (secret : string) (payload : JwtPayload) : string :=
  String "t" (pos_bits (encode (secret, payload_tuple payload))).

Definition verify (secret token : string) : option JwtPayload :=
  match token with
  | String "t" bits =>
      match bits_pos bits ≫= decode with
      | Some (secret', t) =>
          if String.eqb secret' secret then Some (tuple_payload t) else None
      | None => None
      end
  | _ => None
  end.

End Reference.

#[local] Instance reference_bcrypt : Bcrypt.
Proof.
  refine {| bcrypt_hash := Reference.hash; bcrypt_compare := Reference.compare |}.
  intros password rounds salt. apply String.eqb_refl.
Defined.

#[local] Instance reference_jws : Jws.
Proof.
  refine {| jws_sign := Reference.sign; jws_verify := Reference.verify |}.
  - intros secret payload. unfold Reference.verify, Reference.sign.
    assert (Hbits : forall p, Reference.bits_pos (Reference.pos_bits p) = Some p).
    { induction p as [p IH|p IH|]; simpl; rewrite ?IH; reflexivity. }
    rewrite Hbits. simpl. rewrite decode_encode, String.eqb_refl.
    destruct payload; reflexivity.
  - intros secret payload. split; [discriminate|].
    unfold Reference.sign. simpl.
    generalize (encode (secret, Reference.payload_tuple payload)).
    induction p as [p IH|p IH|]; simpl; rewrite ?IH; reflexivity.
Defined.

(** [bcrypt] as far as its key limit goes: the package uses only the first
    72 bytes of a password. The digest is stood for by those bytes
    themselves; the salt and the cost are left out, as in [Reference]. *)

Module Bcrypt72.

Definition key (password : string) : string := String.substring 0 72 password.

Definition hash (password : string) (rounds : N) (salt : string) : string :=
  key password.

Definition compare (password hashed : string) : bool :=
  String.eqb (key password) hashed.

(** Seventy-two times the letter [a]. *)
Definition long_prefix : string :=
  string_of_list_ascii (List.repeat "a"%char 72).

End Bcrypt72.

Definition bcrypt72 : Bcrypt.
Proof.
  refine {| bcrypt_hash := Bcrypt72.hash; bcrypt_compare := Bcrypt72.compare |}.
  intros password rounds salt. apply String.eqb_refl.
Defined.

(** Requests and collections to run the handlers on. *)

Module Sample.

Definition this : Server.Server := Server.new 8443 300 "./".
Definition issued : Env := {| now := 1000; salt := "c2FsdA" |}.
Definition later : Env := {| now := 1299; salt := "c2FsdB" |}.
Definition expired : Env := {| now := 1301; salt := "c2FsdC" |}.

Definition profile : Doc := <["age" := JsNumber 30]> ∅.
Definition bob_doc : Doc := new_doc "c2FsdA" "bob" "secret" profile.
Definition users : list Doc := [bob_doc].
Definition doubled : list Doc := [bob_doc; bob_doc].

Definition alice_token : string := Server.createAuthToken this issued "alice".

Definition request (id pw data : JsValue) (auth : option string) : Request :=
  {| params_id := id; query_pw := pw; body := data; authorization := auth;
     protocol := "https"; hostname := "localhost" |}.

Definition fetch (id : string) (auth : option string) : Request :=
  request (JsString id) JsUndefined (JsObject ∅) auth.

Definition login (id password : string) : Request :=
  request (JsString id) JsUndefined (JsObject (<["pw" := JsString password]> ∅)) None.

Definition create (id password : string) : Request :=
  request (JsString id) (JsString password) (JsObject profile) None.

End Sample.

(** More requests, and servers with other settings. *)

Module Sample2.

Definition no_timeout : Server.Server := Server.new 8443 0 "./".
Definition much_later : Env := {| now := 5000; salt := "c2FsdD" |}.

Definition created : list Doc * Outcome :=
  Server.createUser Sample.this Sample.issued [] (Sample.create "bob" "secret").

Definition issued_token (outcome : Outcome) : string :=
  match outcome with
  | Responded response => to_string (get_prop (payload response) "authToken")
  | _ => EmptyString
  end.

Definition percent : Request := Sample.fetch "100%" None.
Definition login_without_pw : Request :=
  Sample.request (JsString "bob") JsUndefined (JsObject ∅) None.

End Sample2.

(** ** The start-up script

    The script that connects to the database and builds the server: the
    directory of the key and the certificate is the command-line argument,
    except that [.] is turned into [./]. *)

Module Main.

Definition sslDir (args_sslDir : string) : string :=
  if String.eqb args_sslDir "." then "./" else args_sslDir.

Definition server (args_port args_authTimeout : Z) (args_sslDir : string) : Server.Server :=
  Server.new args_port args_authTimeout (sslDir args_sslDir).

End Main.

(** ** Vocabulary for the further properties *)

(** [pieces.join(sep)], the inverse of [split]. *)
Fixpoint join (sep : ascii) (pieces : list string) : string :=
  match pieces with
  | [] => EmptyString
  | [piece] => piece
  | piece :: rest => piece ++ String sep (join sep rest)
  end.

Fixpoint has_char (c : ascii) (s : string) : bool :=
  match s with
  | EmptyString => false
  | String c' rest => Ascii.eqb c' c || has_char c rest
  end.

(** The body and the headers of the response, when one was sent. *)
Definition payload_of (outcome : Outcome) : JsValue :=
  match outcome with
  | Responded response => payload response
  | _ => JsUndefined
  end.

Definition headers_of (outcome : Outcome) : list (string * string) :=
  match outcome with
  | Responded response => headers response
  | _ => []
  end.

(** Every document has a string under [_pw]. *)
Definition hashes_are_strings (users : list Doc) : Prop :=
  Forall (fun doc : Doc => exists hashed, doc !! "_pw" = Some (JsString hashed)) users.

(** One call of the store's [createUser]: the salt drawn and the three
    arguments. *)
Record Creation : Type := {
  creation_salt : string;
  creation_id : JsValue;
  creation_password : JsValue;
  creation_data : JsValue
}.

(** Calls of [createUser] one after the other, each on the collection the
    previous one left. *)
Fixpoint createUsers `{Bcrypt} (users : list Doc) (calls : list Creation) : list Doc :=
  match calls with
  | [] => users
  | call :: rest =>
      createUsers
        (UserDatabase.createUser users (creation_salt call) (creation_id call)
           (creation_password call) (creation_data call)).1
        rest
  end.

(** * Properties *)

(** ** Strings *)

Example split_bearer : split " " "Bearer abc" = ["Bearer"; "abc"].
Proof. reflexivity. Qed.
Example split_two_spaces : split " " "Bearer  abc" = ["Bearer"; ""; "abc"].
Proof. reflexivity. Qed.
Example lower_BEARER : toLowerCase "BeArER" = "bearer".
Proof. reflexivity. Qed.
Example decode_undefined : decodeURIComponent JsUndefined = Some "undefined".
Proof. reflexivity. Qed.
Example decode_space : decodeURIComponent (JsString "a%20b%2Fc") = Some "a b/c".
Proof. reflexivity. Qed.
Example decode_lone_percent : decodeURIComponent (JsString "%") = None.
Proof. reflexivity. Qed.
Example decode_empty : decodeURIComponent (JsString "") = Some "".
Proof. reflexivity. Qed.
Example to_string_number : to_string (JsNumber 8443) = "8443".
Proof. reflexivity. Qed.

Lemma truthy_string (s : string) : truthy (JsString s) = true <-> s <> "".
Proof.
  simpl. destruct (String.eqb_spec s ""); simpl; split; congruence.
Qed.

Lemma split_no_space (s : string) :
  no_space s = true -> split " " s = [s].
Proof.
  induction s as [|c s IH]; simpl; [reflexivity|].
  destruct (Ascii.eqb c " "); simpl; [discriminate|].
  intros Hs. rewrite (IH Hs). reflexivity.
Qed.

Lemma split_scheme_token (scheme rest : string) :
  no_space scheme = true ->
  split " " (scheme ++ String " " rest) = scheme :: split " " rest.
Proof.
  induction scheme as [|c s IH]; simpl; [reflexivity|].
  destruct (Ascii.eqb c " "); simpl; [discriminate|].
  intros Hs. rewrite (IH Hs). reflexivity.
Qed.

Lemma lower_ascii_space (c : ascii) : lower_ascii c = " "%char -> c = " "%char.
Proof.
  destruct c as [[] [] [] [] [] [] [] []]; vm_compute; congruence.
Qed.

Lemma no_space_toLowerCase (s : string) :
  no_space (toLowerCase s) = true -> no_space s = true.
Proof.
  induction s as [|c s IH]; simpl; [reflexivity|].
  intros [Hc Hs]%andb_true_iff. rewrite (IH Hs), andb_true_r.
  destruct (Ascii.eqb_spec c " ") as [->|Hne]; [exact Hc | reflexivity].
Qed.

Lemma bearer_no_space (scheme : string) :
  toLowerCase scheme = "bearer" -> no_space scheme = true.
Proof.
  intros Hl. apply no_space_toLowerCase. rewrite Hl. reflexivity.
Qed.

Lemma valid_header_value_app (a b : string) :
  valid_header_value (a ++ b) = valid_header_value a && valid_header_value b.
Proof.
  induction a as [|c a IH]; [reflexivity|].
  change (header_char c && valid_header_value (a ++ b)
          = header_char c && valid_header_value a && valid_header_value b).
  rewrite IH. apply andb_assoc.
Qed.

Lemma valid_header_value_string_of_Z (n : Z) : valid_header_value (string_of_Z n) = true.
Proof.
  assert (Hdigits : forall d, valid_header_value (NilEmpty.string_of_uint d) = true).
  { induction d as [|d IH|d IH|d IH|d IH|d IH|d IH|d IH|d IH|d IH|d IH];
      simpl; rewrite ?IH; reflexivity. }
  assert (Huint : forall d, valid_header_value (NilZero.string_of_uint d) = true).
  { intros d. destruct d; try apply Hdigits. reflexivity. }
  unfold string_of_Z. destruct (Z.to_int n) as [d|d]; simpl.
  - apply Huint.
  - apply Huint.
Qed.

(** The value of the [Location] header is one Node accepts when the
    protocol, the host name and the identifier are. *)
Lemma location_is_valid (this : Server.Server) (req : Request) (id : string) :
  valid_header_value (protocol req) = true ->
  valid_header_value (hostname req) = true ->
  valid_header_value id = true ->
  valid_header_value (Server.getRequestBaseUrl this req ++ "users/" ++ id) = true.
Proof.
  intros Hp Hh Hid. unfold Server.getRequestBaseUrl.
  rewrite !valid_header_value_app, Hp, Hh, Hid, valid_header_value_string_of_Z.
  reflexivity.
Qed.

(** ** The collection *)

Lemma matches_id_spec (id : string) (doc : Doc) :
  UserDatabase.matches_id id doc = true <-> doc !! "_id" = Some (JsString id).
Proof.
  unfold UserDatabase.matches_id.
  destruct (doc !! "_id") as [[| | | |s|]|]; try (split; congruence).
  destruct (String.eqb_spec s id); split; congruence.
Qed.

Lemma find_absent (id : string) (users : list Doc) :
  absent id users <-> UserDatabase.find users id = [].
Proof.
  unfold absent, UserDatabase.find. induction users as [|doc users IH]; simpl.
  - split; [reflexivity | constructor].
  - destruct (UserDatabase.matches_id id doc) eqn:Hm.
    + split; [|discriminate]. intros HF. inversion HF as [|? ? Hd _]; subst.
      apply matches_id_spec in Hm. contradiction.
    + split.
      * intros HF. inversion HF; subst. apply IH. assumption.
      * intros Hf. constructor; [|apply IH; assumption].
        intros Hd. apply matches_id_spec in Hd. congruence.
Qed.

Lemma find_app (id : string) (users more : list Doc) :
  UserDatabase.find (users ++ more) id
  = (UserDatabase.find users id ++ UserDatabase.find more id)%list.
Proof. unfold UserDatabase.find. apply List.filter_app. Qed.

(** ** The store, one call at a time *)

Lemma eqb_empty_false (s : string) : s <> "" -> String.eqb s "" = false.
Proof. intros Hs. destruct (String.eqb_spec s ""); congruence. Qed.

Lemma new_doc_matches `{Bcrypt} (salt id password : string) (profile : Doc) :
  UserDatabase.matches_id id (new_doc salt id password profile) = true.
Proof.
  apply matches_id_spec. unfold new_doc.
  rewrite lookup_insert_ne by discriminate. apply lookup_insert_eq.
Qed.

Lemma createUser_fresh `{Bcrypt} (users : list Doc) (salt id password : string)
    (profile : Doc) :
  id <> "" -> password <> "" -> absent id users ->
  UserDatabase.createUser users salt (JsString id) (JsString password) (JsObject profile)
  = ((users ++ [new_doc salt id password profile])%list, Resolved (JsBool true)).
Proof.
  intros Hid Hpw Habs. unfold UserDatabase.createUser. simpl.
  rewrite (eqb_empty_false _ Hid), (eqb_empty_false _ Hpw). simpl.
  apply find_absent in Habs. rewrite Habs. reflexivity.
Qed.

Lemma find_created `{Bcrypt} (users : list Doc) (salt id password : string)
    (profile : Doc) :
  absent id users ->
  UserDatabase.find (users ++ [new_doc salt id password profile]) id
  = [new_doc salt id password profile].
Proof.
  intros Habs. rewrite find_app. apply find_absent in Habs. rewrite Habs.
  unfold UserDatabase.find. simpl. rewrite new_doc_matches. reflexivity.
Qed.

Lemma createUser_existing `{Bcrypt} (users : list Doc) (salt id password : string)
    (data : JsValue) (doc : Doc) :
  id <> "" -> password <> "" -> truthy data = true ->
  UserDatabase.find users id = [doc] ->
  UserDatabase.createUser users salt (JsString id) (JsString password) data
  = (users, Resolved (JsString "already exists")).
Proof.
  intros Hid Hpw Hdata Hfind. unfold UserDatabase.createUser. simpl.
  rewrite (eqb_empty_false _ Hid), (eqb_empty_false _ Hpw), Hdata, Hfind.
  reflexivity.
Qed.

Lemma checkPassword_one `{Bcrypt} (users : list Doc) (id password hashed : string)
    (doc : Doc) :
  id <> "" -> password <> "" ->
  UserDatabase.find users id = [doc] -> doc !! "_pw" = Some (JsString hashed) ->
  UserDatabase.checkPassword users (JsString id) (JsString password)
  = (users, Resolved (JsBool (bcrypt_compare password hashed))).
Proof.
  intros Hid Hpw Hfind Hdoc. unfold UserDatabase.checkPassword. simpl.
  rewrite (eqb_empty_false _ Hid), (eqb_empty_false _ Hpw), Hfind, Hdoc. simpl.
  destruct (bcrypt_compare password hashed); reflexivity.
Qed.


Lemma getUser_one (users : list Doc) (id : string) (doc : Doc) :
  id <> "" -> UserDatabase.find users id = [doc] ->
  UserDatabase.getUser users (JsString id)
  = (users, Resolved (JsObject (delete "_pw" (delete "_id" doc)))).
Proof.
  intros Hid Hfind. unfold UserDatabase.getUser. simpl.
  rewrite (eqb_empty_false _ Hid), Hfind. reflexivity.
Qed.


(** Every call of the store that does not insert leaves the collection as it
    was; [checkPassword] and [getUser] never insert. *)
Lemma checkPassword_reads `{Bcrypt} (users : list Doc) (id password : JsValue) :
  (UserDatabase.checkPassword users id password).1 = users.
Proof.
  unfold UserDatabase.checkPassword.
  repeat (match goal with |- context [match ?x with _ => _ end] => destruct x end;
          try reflexivity).
Qed.

Lemma getUser_reads (users : list Doc) (id : JsValue) :
  (UserDatabase.getUser users id).1 = users.
Proof.
  unfold UserDatabase.getUser.
  repeat (match goal with |- context [match ?x with _ => _ end] => destruct x end;
          try reflexivity).
Qed.

(** Outside its preconditions the store rejects before it reads the
    collection. *)
Lemma store_rejects_invalid_parameters `{Bcrypt} (users : list Doc) (salt : string)
    (id password data : JsValue) :
  truthy id = false \/ is_string id = false
  \/ truthy password = false \/ is_string password = false ->
  UserDatabase.createUser users salt id password data
  = (users, Rejected "Invalid parameters")
  /\ UserDatabase.checkPassword users id password
     = (users, Rejected "Invalid parameters").
Proof.
  intros Hbad. unfold UserDatabase.createUser, UserDatabase.checkPassword.
  assert (Hguard : negb (truthy id) || negb (is_string id)
                   || negb (truthy password) || negb (is_string password) = true).
  { destruct Hbad as [-> | [-> | [-> | ->]]]; simpl; rewrite ?orb_true_r; reflexivity. }
  rewrite Hguard. simpl. split; reflexivity.
Qed.

(** Calls of [createUser] one after the other keep the invariant, so the
    branch for several documents is not reached from the empty collection. *)
Lemma createUser_keeps_unique_ids `{Bcrypt} (users : list Doc) (salt : string)
    (id password data : JsValue) :
  unique_ids users ->
  unique_ids (UserDatabase.createUser users salt id password data).1.
Proof.
  intros Huniq. unfold UserDatabase.createUser.
  destruct (negb (truthy id) || negb (is_string id) || negb (truthy password)
            || negb (is_string password) || negb (truthy data)); [exact Huniq|].
  destruct id as [| | | |id_s|]; try exact Huniq.
  destruct password as [| | | |password_s|]; try exact Huniq.
  cbv zeta.
  destruct (length (UserDatabase.find users id_s) =? 1)%nat; [exact Huniq|].
  destruct (length (UserDatabase.find users id_s) =? 0)%nat eqn:Hnone;
    [|exact Huniq].
  destruct data as [| | | | |fields]; try exact Huniq.
  simpl. intros id'. rewrite find_app, length_app.
  unfold UserDatabase.find at 2. simpl.
  destruct (UserDatabase.matches_id id' _) eqn:Hm; simpl.
  - apply matches_id_spec in Hm.
    rewrite lookup_insert_ne in Hm by discriminate.
    rewrite lookup_insert_eq in Hm. injection Hm as ->.
    apply Nat.eqb_eq in Hnone. rewrite Hnone. simpl. lia.
  - specialize (Huniq id'). lia.
Qed.

(** ** C1 *)

(** C1. For a non-empty identifier and password and a profile object, when
    no document of the collection carries the identifier, [createUser]
    resolves with [true], and [checkPassword] with the same identifier and
    password on the collection it leaves resolves with [true]: the hash
    stored at creation verifies the password it was made from. *)
Theorem createUser_then_checkPassword `{Bcrypt} (users : list Doc)
    (salt id password : string) (profile : Doc) :
  id <> "" -> password <> "" -> absent id users ->
  let created :=
    UserDatabase.createUser users salt (JsString id) (JsString password) (JsObject profile) in
  created.2 = Resolved (JsBool true)
  /\ UserDatabase.checkPassword created.1 (JsString id) (JsString password)
     = (created.1, Resolved (JsBool true)).
Proof.
  intros Hid Hpw Habs created. subst created.
  rewrite (createUser_fresh users salt id password profile Hid Hpw Habs). simpl.
  split; [reflexivity|].
  rewrite (checkPassword_one _ id password (bcrypt_hash password 10 salt)
             (new_doc salt id password profile) Hid Hpw).
  - rewrite bcrypt_compare_hash. reflexivity.
  - apply find_created. assumption.
  - unfold new_doc. apply lookup_insert_eq.
Qed.

(** ** Tokens *)

Lemma checkAuthToken_minted `{Jws} (this : Server.Server) (env0 env : Env) (id : string) :
  Server.checkAuthToken this env (Server.createAuthToken this env0 id)
  = (now env <? now env0 + Server.authTimeout this).
Proof.
  unfold Server.checkAuthToken, Server.createAuthToken, jwt.verify, jwt.sign.
  rewrite jws_verify_sign. simpl.
  destruct (Z.leb_spec (now env0 + Server.authTimeout this) (now env)) as [Hle|Hlt];
    destruct (Z.ltb_spec (now env) (now env0 + Server.authTimeout this));
    destruct (Server.authTimeout this =? 0);
    try reflexivity; lia.
Qed.

Lemma checkAuthToken_invalid `{Jws} (this : Server.Server) (env : Env) (token : string) :
  jws_verify Server.authSecret token = None ->
  Server.checkAuthToken this env token = false.
Proof.
  intros Hv. unfold Server.checkAuthToken, jwt.verify. rewrite Hv. reflexivity.
Qed.

Lemma createAuthToken_shape `{Jws} (this : Server.Server) (env : Env) (id : string) :
  Server.createAuthToken this env id <> ""
  /\ no_space (Server.createAuthToken this env id) = true.
Proof. apply jws_sign_shape. Qed.

(** ** The handlers *)

(** A header [scheme token] whose scheme lowercases to [bearer] takes
    [getUser] to the verification of [token]. *)
Lemma getUser_bearer_header `{Jws} (this : Server.Server) (env : Env)
    (users : list Doc) (req : Request) (id scheme token : string) :
  decodeURIComponent (params_id req) = Some id -> id <> "" ->
  authorization req = Some (scheme ++ " " ++ token) ->
  toLowerCase scheme = "bearer" -> token <> "" -> no_space token = true ->
  Server.getUser this env users req = Server.getUser_with_token this env users id token.
Proof.
  intros Hdec Hid Hauth Hscheme Htok Hns. unfold Server.getUser.
  rewrite Hdec, Hauth. simpl. rewrite (eqb_empty_false _ Hid). simpl.
  change (scheme ++ " " ++ token) with (scheme ++ String " " token).
  rewrite (split_scheme_token scheme token (bearer_no_space _ Hscheme)).
  rewrite (split_no_space token Hns). simpl.
  rewrite Hscheme, (eqb_empty_false _ Htok). simpl.
  destruct scheme; [discriminate Hscheme | reflexivity].
Qed.

Lemma getUser_minted_token `{Jws} (this : Server.Server) (env0 env : Env)
    (users : list Doc) (req : Request) (id holder : string) :
  decodeURIComponent (params_id req) = Some id -> id <> "" ->
  authorization req = Some ("Bearer " ++ Server.createAuthToken this env0 holder) ->
  now env < now env0 + Server.authTimeout this ->
  Server.getUser this env users req
  = match (UserDatabase.getUser users (JsString id)).2 with
    | Resolved result =>
        if strict_eq_string result "not found"
        then (users, Server.send_info Server.NOT_FOUND [] "ERROR_NOT_FOUND"
                       ("user " ++ id ++ " not found"))
        else (users, Server.json result)
    | Rejected _ => (users, Server.internal_server_error)
    | Pending => (users, NoResponse)
    end.
Proof.
  intros Hdec Hid Hauth Hnow.
  destruct (createAuthToken_shape this env0 holder) as [Hne Hns].
  rewrite (getUser_bearer_header this env users req id "Bearer"
             (Server.createAuthToken this env0 holder) Hdec Hid Hauth eq_refl Hne Hns).
  unfold Server.getUser_with_token. rewrite checkAuthToken_minted.
  destruct (Z.ltb_spec (now env) (now env0 + Server.authTimeout this)); [|lia].
  pose proof (getUser_reads users (JsString id)) as Hr.
  destruct (UserDatabase.getUser users (JsString id)) as [users' promise].
  simpl in Hr. subst users'. simpl.
  destruct promise as [result| |]; reflexivity.
Qed.

(** ** C2 *)

(** C2. A token minted by [createAuthToken] for any identifier [holder],
    presented as [Bearer <token>] before the timeout has passed, makes the
    fetch-profile handler answer 200 with the profile of any other identifier
    [id] that has a document: the subject of the token is never compared with
    the identifier of the path. *)
Theorem any_token_reads_any_profile `{Jws} (this : Server.Server) (env0 env : Env)
    (users : list Doc) (req : Request) (holder id : string) (doc : Doc) :
  decodeURIComponent (params_id req) = Some id -> id <> "" ->
  UserDatabase.find users id = [doc] ->
  authorization req = Some ("Bearer " ++ Server.createAuthToken this env0 holder) ->
  now env < now env0 + Server.authTimeout this ->
  Server.getUser this env users req
  = (users, Responded {| status := 200; headers := [];
                         payload := JsObject (delete "_pw" (delete "_id" doc)) |}).
Proof.
  intros Hdec Hid Hfind Hauth Hnow.
  rewrite (getUser_minted_token this env0 env users req id holder Hdec Hid Hauth Hnow).
  rewrite (getUser_one users id doc Hid Hfind). reflexivity.
Qed.

(** ** C6 *)

(** C6. A token minted by [createAuthToken] at clock reading [now env0]
    verifies under [checkAuthToken] at every reading less than
    [authTimeout] seconds later, and fails at every reading more than
    [authTimeout] seconds later. *)
Theorem token_expires_after_authTimeout `{Jws} (this : Server.Server)
    (env0 env : Env) (id : string) :
  (now env - now env0 < Server.authTimeout this ->
   Server.checkAuthToken this env (Server.createAuthToken this env0 id) = true)
  /\ (Server.authTimeout this < now env - now env0 ->
      Server.checkAuthToken this env (Server.createAuthToken this env0 id) = false).
Proof.
  rewrite checkAuthToken_minted. split; intros Ht.
  - apply Z.ltb_lt. lia.
  - apply Z.ltb_ge. lia.
Qed.

(** At exactly [authTimeout] seconds the token is already refused. *)
Lemma token_refused_at_authTimeout `{Jws} (this : Server.Server)
    (env0 env : Env) (id : string) :
  now env - now env0 = Server.authTimeout this ->
  Server.checkAuthToken this env (Server.createAuthToken this env0 id) = false.
Proof. intros Ht. rewrite checkAuthToken_minted. apply Z.ltb_ge. lia. Qed.

(** ** C3 *)

(** The guard of the create-account handler: an identifier or a password
    that decodes to the empty string, or a falsy body, is answered with 400
    and the collection is left as it was. *)
Lemma createUser_bad_request `{Bcrypt} `{Jws} (this : Server.Server) (env : Env)
    (users : list Doc) (req : Request) (id password : string) :
  decodeURIComponent (params_id req) = Some id ->
  decodeURIComponent (query_pw req) = Some password ->
  id = "" \/ password = "" \/ truthy (body req) = false ->
  Server.createUser this env users req
  = (users, Server.send_info 400 [] "ERROR_BAD_REQUEST" "ID, password, or body is invalid").
Proof.
  intros Hid Hpw Hbad. unfold Server.createUser. rewrite Hid, Hpw.
  destruct Hbad as [-> | [-> | ->]]; simpl; rewrite ?orb_true_r; reflexivity.
Qed.

(** Without the query parameter [pw] the guard of the create-account handler
    does not answer 400, whatever the collection holds. *)
Lemma createUser_absent_pw_passes_guard `{Bcrypt} `{Jws} (this : Server.Server)
    (env : Env) (users : list Doc) (req : Request) (id : string) :
  query_pw req = JsUndefined ->
  decodeURIComponent (params_id req) = Some id -> id <> "" ->
  truthy (body req) = true ->
  status_of (Server.createUser this env users req).2 <> Some 400.
Proof.
  intros Hpw Hdec Hid Hbody. unfold Server.createUser. rewrite Hdec, Hpw.
  change (decodeURIComponent JsUndefined) with (Some "undefined").
  cbv iota beta. rewrite Hbody. simpl truthy. rewrite (eqb_empty_false _ Hid).
  simpl negb. cbv iota.
  destruct (UserDatabase.createUser users (salt env) (JsString id)
              (JsString "undefined") (body req)) as [users' [result| |]];
    cbv zeta; cbn [snd]; try discriminate.
  destruct (negb (valid_header_value _)); [discriminate|].
  destruct (strict_eq_string result "already exists"); discriminate.
Qed.

(** C3, which the code does not meet. A create-account request without the
    query parameter [pw] reaches the handler with [req.query.pw] undefined;
    [decodeURIComponent(undefined)] is the string ["undefined"], which is
    truthy, so the guard lets the request through: the account is created
    with the password ["undefined"], the answer is 201, and that password
    logs in afterwards. *)
Theorem createUser_without_pw_is_not_rejected `{Bcrypt} `{Jws}
    (this : Server.Server) (env : Env) :
  let profile : Doc := <["age" := JsNumber 30]> ∅ in
  let req := {| params_id := JsString "bob"; query_pw := JsUndefined;
                body := JsObject profile; authorization := None;
                protocol := "https"; hostname := "localhost" |} in
  let handled := Server.createUser this env [] req in
  status_of handled.2 = Some 201
  /\ handled.1 = [new_doc (salt env) "bob" "undefined" profile]
  /\ UserDatabase.checkPassword handled.1 (JsString "bob") (JsString "undefined")
     = (handled.1, Resolved (JsBool true)).
Proof.
  intros profile req handled. subst handled. unfold Server.createUser.
  change (decodeURIComponent (params_id req)) with (Some "bob").
  change (decodeURIComponent (query_pw req)) with (Some "undefined").
  cbv iota beta.
  change (negb (truthy (JsString "bob")) || negb (truthy (JsString "undefined"))
          || negb (truthy (body req))) with false.
  cbv iota.
  assert (Habs : absent "bob" []) by constructor.
  change (body req) with (JsObject profile).
  rewrite (createUser_fresh [] (salt env) "bob" "undefined" profile
             ltac:(discriminate) ltac:(discriminate) Habs).
  cbv zeta. cbn [snd].
  rewrite (location_is_valid this req "bob" eq_refl eq_refl eq_refl).
  simpl. split; [reflexivity|]. split; [reflexivity|].
  rewrite (checkPassword_one [new_doc (salt env) "bob" "undefined" profile]
             "bob" "undefined" (bcrypt_hash "undefined" 10 (salt env))
             (new_doc (salt env) "bob" "undefined" profile)
             ltac:(discriminate) ltac:(discriminate)).
  - rewrite bcrypt_compare_hash. reflexivity.
  - apply (find_created [] (salt env) "bob" "undefined" profile Habs).
  - unfold new_doc. apply lookup_insert_eq.
Qed.

(** ** C4 *)

(** The profile comes back as it was given, when it has no field named
    [_id] or [_pw]. *)
Lemma createUser_then_getUser `{Bcrypt} (users : list Doc)
    (salt id password : string) (profile : Doc) :
  id <> "" -> password <> "" -> absent id users ->
  profile !! "_id" = None -> profile !! "_pw" = None ->
  UserDatabase.getUser
    (UserDatabase.createUser users salt (JsString id) (JsString password)
       (JsObject profile)).1 (JsString id)
  = ((users ++ [new_doc salt id password profile])%list, Resolved (JsObject profile)).
Proof.
  intros Hid Hpw Habs Hnid Hnpw.
  rewrite (createUser_fresh users salt id password profile Hid Hpw Habs). simpl.
  rewrite (getUser_one _ id (new_doc salt id password profile) Hid
             (find_created users salt id password profile Habs)).
  do 3 f_equal. unfold new_doc.
  rewrite delete_insert_ne by discriminate. rewrite delete_insert_eq.
  rewrite delete_insert_eq.
  rewrite (delete_id profile "_id") by assumption. apply delete_id. assumption.
Qed.

(** C4. When the collection holds one document for a non-empty identifier,
    [getUser] resolves with that document without its [_id] and [_pw]
    fields and with every other field as stored; and whatever object
    [getUser] resolves with, for any collection and argument, has no [_pw]
    and no [_id] field. *)
Theorem getUser_strips_id_and_password (users : list Doc) (id : string) (doc : Doc) :
  id <> "" -> UserDatabase.find users id = [doc] ->
  (exists profile : Doc,
     UserDatabase.getUser users (JsString id) = (users, Resolved (JsObject profile))
     /\ profile !! "_id" = None /\ profile !! "_pw" = None
     /\ forall k : string, k <> "_id" -> k <> "_pw" -> profile !! k = doc !! k)
  /\ (forall (others : list Doc) (arg : JsValue) (result : Doc),
        (UserDatabase.getUser others arg).2 = Resolved (JsObject result) ->
        result !! "_pw" = None /\ result !! "_id" = None).
Proof.
  intros Hid Hfind. split.
  - exists (delete "_pw" (delete "_id" doc)).
    split; [apply getUser_one; assumption|].
    split; [rewrite lookup_delete_ne by discriminate; apply lookup_delete_eq|].
    split; [apply lookup_delete_eq|].
    intros k Hk1 Hk2. rewrite !lookup_delete_ne by congruence. reflexivity.
  - intros others arg result. unfold UserDatabase.getUser.
    destruct (negb (truthy arg) || negb (is_string arg)); [discriminate|].
    destruct arg; try discriminate.
    destruct (UserDatabase.find others s) as [|found [|found' rest]]; try discriminate.
    simpl. intros [= <-].
    split; [apply lookup_delete_eq|].
    rewrite lookup_delete_ne by discriminate. apply lookup_delete_eq.
Qed.

(** ** C5 *)

(** C5, corrected. On a collection without the identifier, [createUser] with
    password [p1] and then [createUser] with the same identifier and password
    [p2] resolve with [true] and then with ["already exists"]; the second
    call leaves the collection as the first left it; the stored hash verifies
    [p1]; and [p2] is verified exactly when [bcrypt] accepts it against the
    hash made from [p1]: the password and the salt of the second call play
    no part. *)
Theorem createUser_twice_checks_against_first_hash `{Bcrypt} (users : list Doc)
    (salt1 salt2 id p1 p2 : string) (profile1 profile2 : Doc) :
  id <> "" -> p1 <> "" -> p2 <> "" -> absent id users ->
  let first :=
    UserDatabase.createUser users salt1 (JsString id) (JsString p1) (JsObject profile1) in
  let second :=
    UserDatabase.createUser first.1 salt2 (JsString id) (JsString p2) (JsObject profile2) in
  first.2 = Resolved (JsBool true)
  /\ second.2 = Resolved (JsString "already exists")
  /\ second.1 = first.1
  /\ UserDatabase.checkPassword second.1 (JsString id) (JsString p1)
     = (second.1, Resolved (JsBool true))
  /\ UserDatabase.checkPassword second.1 (JsString id) (JsString p2)
     = (second.1, Resolved (JsBool (bcrypt_compare p2 (bcrypt_hash p1 10 salt1)))).
Proof.
  intros Hid Hp1 Hp2 Habs first second. subst second first.
  rewrite (createUser_fresh users salt1 id p1 profile1 Hid Hp1 Habs). simpl.
  pose proof (find_created users salt1 id p1 profile1 Habs) as Hfind.
  rewrite (createUser_existing _ salt2 id p2 (JsObject profile2) _ Hid Hp2 eq_refl Hfind).
  simpl. repeat split.
  - rewrite (checkPassword_one _ id p1 (bcrypt_hash p1 10 salt1) _ Hid Hp1 Hfind)
      by (unfold new_doc; apply lookup_insert_eq).
    rewrite bcrypt_compare_hash. reflexivity.
  - apply (checkPassword_one _ id p2 (bcrypt_hash p1 10 salt1) _ Hid Hp2 Hfind).
    unfold new_doc. apply lookup_insert_eq.
Qed.

(** The claim C5 ends with: a password [p2] other than [p1] is not verified.
    With [bcrypt] reading 72 bytes, two passwords of 73 bytes that differ in
    the last one only are both verified by the hash of the first. *)
Lemma createUser_twice_long_passwords_verify_alike :
  let p1 := Bcrypt72.long_prefix ++ "x" in
  let p2 := Bcrypt72.long_prefix ++ "y" in
  let first :=
    @UserDatabase.createUser bcrypt72 [] "c2FsdA" (JsString "bob") (JsString p1)
      (JsObject ∅) in
  let second :=
    @UserDatabase.createUser bcrypt72 first.1 "c2FsdB" (JsString "bob") (JsString p2)
      (JsObject ∅) in
  p2 <> p1
  /\ first.2 = Resolved (JsBool true)
  /\ second.2 = Resolved (JsString "already exists")
  /\ @UserDatabase.checkPassword bcrypt72 second.1 (JsString "bob") (JsString p2)
     = (second.1, Resolved (JsBool true))
  /\ ~ (p2 <> p1 ->
        @UserDatabase.checkPassword bcrypt72 second.1 (JsString "bob") (JsString p2)
        = (second.1, Resolved (JsBool false))).
Proof.
  intros p1 p2 first second.
  assert (Hne : p2 <> p1) by (vm_compute; discriminate).
  assert (Hcheck : @UserDatabase.checkPassword bcrypt72 second.1 (JsString "bob")
                     (JsString p2) = (second.1, Resolved (JsBool true)))
    by (vm_compute; reflexivity).
  split; [exact Hne|]. split; [vm_compute; reflexivity|].
  split; [vm_compute; reflexivity|]. split; [exact Hcheck|].
  intros Hclaim. specialize (Hclaim Hne). rewrite Hcheck in Hclaim.
  discriminate Hclaim.
Qed.

(** ** C7 *)

(** C7. With a path identifier that decodes to a non-empty string, a
    fetch-profile request is answered 401, the collection untouched, when the
    [Authorization] header is absent, when it has no token after the scheme,
    when its scheme does not lowercase to [bearer], and when its token is
    malformed or wrongly signed; in the last case [checkAuthToken] returns
    [false] instead of letting the error of [jwt.verify] through. *)
Theorem bad_credentials_are_unauthorized `{Jws} (this : Server.Server) (env : Env)
    (users : list Doc) (req : Request) (id : string) :
  decodeURIComponent (params_id req) = Some id -> id <> "" ->
  authorization req = None
  \/ (exists h, authorization req = Some h
       /\ (split " " h !! 1%nat = None \/ split " " h !! 1%nat = Some ""))
  \/ (exists h scheme, authorization req = Some h
       /\ split " " h !! 0%nat = Some scheme /\ toLowerCase scheme <> "bearer")
  \/ (exists h token, authorization req = Some h
       /\ split " " h !! 1%nat = Some token
       /\ jws_verify Server.authSecret token = None) ->
  Server.getUser this env users req = (users, Server.unauthorized id)
  /\ status_of (Server.getUser this env users req).2 = Some 401
  /\ (forall token, jws_verify Server.authSecret token = None ->
       Server.checkAuthToken this env token = false).
Proof.
  intros Hdec Hid Hbad.
  assert (Hout : Server.getUser this env users req = (users, Server.unauthorized id)).
  { unfold Server.getUser. rewrite Hdec. simpl. rewrite (eqb_empty_false _ Hid). simpl.
    destruct Hbad as [Hnone | [(h & Hh & Hmiss) | [(h & scheme & Hh & Hs & Hl)
                                | (h & token & Hh & Ht & Hv)]]].
    - rewrite Hnone. reflexivity.
    - rewrite Hh. unfold Server.index.
      destruct Hmiss as [-> | ->]; simpl; rewrite !orb_true_r; reflexivity.
    - rewrite Hh. unfold Server.index. rewrite Hs. simpl.
      destruct (String.eqb_spec (toLowerCase scheme) "bearer") as [He|_];
        [contradiction|].
      simpl. rewrite orb_true_r. reflexivity.
    - rewrite Hh. unfold Server.index. rewrite Ht. simpl.
      match goal with |- (if ?c then _ else _) = _ => destruct c end;
        [reflexivity|].
      unfold Server.getUser_with_token.
      rewrite (checkAuthToken_invalid this env token Hv). reflexivity. }
  split; [exact Hout|]. split; [rewrite Hout; reflexivity|].
  intros token Hv. apply checkAuthToken_invalid. assumption.
Qed.

(** ** C8 *)

Lemma logIn_checks_password `{Bcrypt} `{Jws} (this : Server.Server) (env : Env)
    (users : list Doc) (req : Request) (id password : string) (fields : Doc) :
  decodeURIComponent (params_id req) = Some id -> id <> "" ->
  body req = JsObject fields -> fields !! "pw" = Some (JsString password) ->
  password <> "" ->
  Server.logIn this env users req
  = match (UserDatabase.checkPassword users (JsString id) (JsString password)).2 with
    | Resolved result =>
        if strict_eq_string result "not found"
        then (users, Server.send_info 404 [] "ERROR_NOT_FOUND" ("user " ++ id ++ " not found"))
        else if strict_eq_bool result false
        then (users, Server.send_info 401 [] "ERROR_UNAUTHORIZED"
                ("/users/" ++ id ++ "/auth requires a valid 'pw' password query parameter"))
        else if strict_eq_bool result true
        then (users, Server.send_token 200 [] "OK" (Server.createAuthToken this env id))
        else (users, NoResponse)
    | Rejected _ => (users, Server.internal_server_error)
    | Pending => (users, NoResponse)
    end.
Proof.
  intros Hdec Hid Hbody Hpw Hne. unfold Server.logIn.
  rewrite Hdec, Hbody. simpl. rewrite Hpw. simpl.
  rewrite (eqb_empty_false _ Hid), (eqb_empty_false _ Hne). simpl.
  pose proof (checkPassword_reads users (JsString id) (JsString password)) as Hr.
  destruct (UserDatabase.checkPassword users (JsString id) (JsString password))
    as [users' promise].
  simpl in Hr. subst users'. simpl. destruct promise; reflexivity.
Qed.


(** ** C9 *)

Lemma store_rejects_multiple_docs `{Bcrypt} (users : list Doc) (salt id password : string)
    (data : JsValue) :
  id <> "" -> password <> "" -> truthy data = true ->
  (1 < length (UserDatabase.find users id))%nat ->
  UserDatabase.createUser users salt (JsString id) (JsString password) data
  = (users, Rejected ("Multiple docs found for user with id " ++ id))
  /\ UserDatabase.checkPassword users (JsString id) (JsString password)
     = (users, Rejected ("Multiple docs found for user with id " ++ id))
  /\ UserDatabase.getUser users (JsString id)
     = (users, Rejected ("Multiple docs found for user with id " ++ id)).
Proof.
  intros Hid Hpw Hdata Hmany.
  unfold UserDatabase.createUser, UserDatabase.checkPassword, UserDatabase.getUser.
  simpl. rewrite (eqb_empty_false _ Hid), (eqb_empty_false _ Hpw), Hdata. simpl.
  destruct (UserDatabase.find users id) as [|doc [|doc' rest]]; simpl in Hmany;
    [lia | lia |].
  repeat split.
Qed.

(** C9. When the collection holds more than one document for an
    identifier, [createUser], [checkPassword] and [getUser] on it reject with
    the multiple-documents error and leave the collection as it was; each of
    the three handlers answers 500, once, with the collection unchanged. *)
Theorem multiple_docs_are_an_internal_error `{Bcrypt} `{Jws} (this : Server.Server)
    (env0 env : Env) (users : list Doc) (id password holder : string)
    (create login fetch : Request) (fields : Doc) :
  id <> "" -> password <> "" ->
  (1 < length (UserDatabase.find users id))%nat ->
  decodeURIComponent (params_id create) = Some id ->
  decodeURIComponent (query_pw create) = Some password ->
  truthy (body create) = true ->
  decodeURIComponent (params_id login) = Some id ->
  body login = JsObject fields -> fields !! "pw" = Some (JsString password) ->
  decodeURIComponent (params_id fetch) = Some id ->
  authorization fetch = Some ("Bearer " ++ Server.createAuthToken this env0 holder) ->
  now env < now env0 + Server.authTimeout this ->
  UserDatabase.createUser users (salt env) (JsString id) (JsString password) (body create)
  = (users, Rejected ("Multiple docs found for user with id " ++ id))
  /\ UserDatabase.checkPassword users (JsString id) (JsString password)
     = (users, Rejected ("Multiple docs found for user with id " ++ id))
  /\ UserDatabase.getUser users (JsString id)
     = (users, Rejected ("Multiple docs found for user with id " ++ id))
  /\ Server.createUser this env users create = (users, Server.internal_server_error)
  /\ Server.logIn this env users login = (users, Server.internal_server_error)
  /\ Server.getUser this env users fetch = (users, Server.internal_server_error)
  /\ status_of Server.internal_server_error = Some 500.
Proof.
  intros Hid Hpw Hmany Hcid Hcpw Hcbody Hlogin Hbody Hfield Hfetch Hauth Hnow.
  destruct (store_rejects_multiple_docs users (salt env) id password (body create)
              Hid Hpw Hcbody Hmany) as (Hcreate & Hcheck & Hget).
  split; [exact Hcreate|]. split; [exact Hcheck|]. split; [exact Hget|].
  split; [|split; [|split; [|reflexivity]]].
  - unfold Server.createUser. rewrite Hcid, Hcpw. simpl.
    rewrite (eqb_empty_false _ Hid), (eqb_empty_false _ Hpw), Hcbody. simpl.
    rewrite Hcreate. reflexivity.
  - rewrite (logIn_checks_password this env users login id password fields
               Hlogin Hid Hbody Hfield Hpw).
    rewrite Hcheck. reflexivity.
  - rewrite (getUser_minted_token this env0 env users fetch id holder
               Hfetch Hid Hauth Hnow).
    rewrite Hget. reflexivity.
Qed.

(** ** C10 *)

(** C10. A header [scheme token] whose scheme is [bearer] in any mix of
    upper and lower case, with a non-empty token, passes the scheme check of
    the fetch-profile handler: the answer is the one the verification of the
    token gives, and it is not a 401 when the token verifies. *)
Theorem bearer_scheme_is_case_insensitive `{Jws} (this : Server.Server) (env : Env)
    (users : list Doc) (req : Request) (id scheme token : string) :
  decodeURIComponent (params_id req) = Some id -> id <> "" ->
  authorization req = Some (scheme ++ " " ++ token) ->
  toLowerCase scheme = "bearer" -> token <> "" -> no_space token = true ->
  Server.getUser this env users req = Server.getUser_with_token this env users id token
  /\ (Server.checkAuthToken this env token = true ->
      status_of (Server.getUser this env users req).2 <> Some 401).
Proof.
  intros Hdec Hid Hauth Hscheme Htok Hns.
  pose proof (getUser_bearer_header this env users req id scheme token
                Hdec Hid Hauth Hscheme Htok Hns) as Hgo.
  split; [exact Hgo|]. intros Hvalid. rewrite Hgo.
  unfold Server.getUser_with_token. rewrite Hvalid.
  destruct (UserDatabase.getUser users (JsString id)) as [users' [result| |]];
    simpl; try discriminate.
  destruct (strict_eq_string result "not found"); discriminate.
Qed.

Lemma bearer_spellings :
  toLowerCase "bearer" = "bearer" /\ toLowerCase "BEARER" = "bearer"
  /\ toLowerCase "Bearer" = "bearer".
Proof. repeat split. Qed.

(** * The theorems at concrete requests *)

Lemma createUser_then_checkPassword_witness :
  "bob" <> "" /\ "secret" <> "" /\ absent "bob" []
  /\ (UserDatabase.createUser [] "c2FsdA" (JsString "bob") (JsString "secret")
        (JsObject Sample.profile)).2 = Resolved (JsBool true)
  /\ UserDatabase.checkPassword Sample.users (JsString "bob") (JsString "secret")
     = (Sample.users, Resolved (JsBool true)).
Proof.
  assert (h1 : "bob" <> "") by discriminate.
  assert (h2 : "secret" <> "") by discriminate.
  assert (h3 : absent "bob" []) by constructor.
  exact (conj h1 (conj h2 (conj h3
    (@createUser_then_checkPassword reference_bcrypt [] "c2FsdA" "bob" "secret"
       Sample.profile h1 h2 h3)))).
Defined.

Lemma any_token_reads_any_profile_witness :
  let req := Sample.fetch "bob" (Some ("Bearer " ++ Sample.alice_token)) in
  decodeURIComponent (params_id req) = Some "bob" /\ "bob" <> ""
  /\ UserDatabase.find Sample.users "bob" = [Sample.bob_doc]
  /\ now Sample.later < now Sample.issued + Server.authTimeout Sample.this
  /\ Server.getUser Sample.this Sample.later Sample.users req
     = (Sample.users, Responded {| status := 200; headers := [];
                                   payload := JsObject (delete "_pw" (delete "_id" Sample.bob_doc)) |}).
Proof.
  intros req.
  assert (h1 : decodeURIComponent (params_id req) = Some "bob") by reflexivity.
  assert (h2 : "bob" <> "") by discriminate.
  assert (h3 : UserDatabase.find Sample.users "bob" = [Sample.bob_doc])
    by (vm_compute; reflexivity).
  assert (h4 : now Sample.later < now Sample.issued + Server.authTimeout Sample.this)
    by (vm_compute; reflexivity).
  exact (conj h1 (conj h2 (conj h3 (conj h4
    (@any_token_reads_any_profile reference_jws Sample.this Sample.issued Sample.later
       Sample.users req "alice" "bob" Sample.bob_doc h1 h2 h3 eq_refl h4))))).
Defined.

Lemma getUser_strips_id_and_password_witness :
  "bob" <> "" /\ UserDatabase.find Sample.users "bob" = [Sample.bob_doc]
  /\ (exists profile : Doc,
        UserDatabase.getUser Sample.users (JsString "bob")
        = (Sample.users, Resolved (JsObject profile))
        /\ profile !! "_id" = None /\ profile !! "_pw" = None
        /\ forall k : string, k <> "_id" -> k <> "_pw" -> profile !! k = Sample.bob_doc !! k)
  /\ (forall (others : list Doc) (arg : JsValue) (result : Doc),
        (UserDatabase.getUser others arg).2 = Resolved (JsObject result) ->
        result !! "_pw" = None /\ result !! "_id" = None).
Proof.
  assert (h1 : "bob" <> "") by discriminate.
  assert (h2 : UserDatabase.find Sample.users "bob" = [Sample.bob_doc])
    by (vm_compute; reflexivity).
  exact (conj h1 (conj h2
    (getUser_strips_id_and_password Sample.users "bob" Sample.bob_doc h1 h2))).
Defined.

Lemma createUser_twice_checks_against_first_hash_witness :
  let first :=
    UserDatabase.createUser [] "c2FsdA" (JsString "bob") (JsString "secret")
      (JsObject Sample.profile) in
  let second :=
    UserDatabase.createUser first.1 "c2FsdB" (JsString "bob") (JsString "other")
      (JsObject ∅) in
  "bob" <> "" /\ "secret" <> "" /\ "other" <> "" /\ absent "bob" []
  /\ first.2 = Resolved (JsBool true)
  /\ second.2 = Resolved (JsString "already exists")
  /\ second.1 = first.1
  /\ UserDatabase.checkPassword second.1 (JsString "bob") (JsString "secret")
     = (second.1, Resolved (JsBool true))
  /\ UserDatabase.checkPassword second.1 (JsString "bob") (JsString "other")
     = (second.1, Resolved (JsBool (bcrypt_compare "other"
                                      (bcrypt_hash "secret" 10 "c2FsdA")))).
Proof.
  intros first second.
  assert (h1 : "bob" <> "") by discriminate.
  assert (h2 : "secret" <> "") by discriminate.
  assert (h3 : "other" <> "") by discriminate.
  assert (h4 : absent "bob" []) by constructor.
  exact (conj h1 (conj h2 (conj h3 (conj h4
    (@createUser_twice_checks_against_first_hash reference_bcrypt [] "c2FsdA" "c2FsdB"
       "bob" "secret" "other" Sample.profile ∅ h1 h2 h3 h4))))).
Defined.

Lemma token_expires_after_authTimeout_witness :
  (now Sample.later - now Sample.issued < Server.authTimeout Sample.this
   /\ Server.checkAuthToken Sample.this Sample.later Sample.alice_token = true)
  /\ (Server.authTimeout Sample.this < now Sample.expired - now Sample.issued
      /\ Server.checkAuthToken Sample.this Sample.expired Sample.alice_token = false).
Proof.
  assert (h1 : now Sample.later - now Sample.issued < Server.authTimeout Sample.this)
    by (vm_compute; reflexivity).
  assert (h2 : Server.authTimeout Sample.this < now Sample.expired - now Sample.issued)
    by (vm_compute; reflexivity).
  exact (conj
    (conj h1 (proj1 (@token_expires_after_authTimeout reference_jws Sample.this
                       Sample.issued Sample.later "alice") h1))
    (conj h2 (proj2 (@token_expires_after_authTimeout reference_jws Sample.this
                       Sample.issued Sample.expired "alice") h2))).
Defined.

Lemma bad_credentials_are_unauthorized_witness :
  let req := Sample.fetch "bob" (Some "Bearer tampered") in
  let bad :=
    authorization req = None
    \/ (exists h, authorization req = Some h
         /\ (split " " h !! 1%nat = None \/ split " " h !! 1%nat = Some ""))
    \/ (exists h scheme, authorization req = Some h
         /\ split " " h !! 0%nat = Some scheme /\ toLowerCase scheme <> "bearer")
    \/ (exists h token, authorization req = Some h
         /\ split " " h !! 1%nat = Some token
         /\ jws_verify Server.authSecret token = None) in
  decodeURIComponent (params_id req) = Some "bob" /\ "bob" <> "" /\ bad
  /\ Server.getUser Sample.this Sample.later Sample.users req
     = (Sample.users, Server.unauthorized "bob")
  /\ status_of (Server.getUser Sample.this Sample.later Sample.users req).2 = Some 401
  /\ (forall token, jws_verify Server.authSecret token = None ->
      Server.checkAuthToken Sample.this Sample.later token = false).
Proof.
  intros req bad.
  assert (h1 : decodeURIComponent (params_id req) = Some "bob") by reflexivity.
  assert (h2 : "bob" <> "") by discriminate.
  assert (h3 : bad).
  { right. right. right. exists "Bearer tampered", "tampered".
    repeat split; vm_compute; reflexivity. }
  exact (conj h1 (conj h2 (conj h3
    (@bad_credentials_are_unauthorized reference_jws Sample.this Sample.later
       Sample.users req "bob" h1 h2 h3)))).
Defined.


Lemma multiple_docs_are_an_internal_error_witness :
  let create := Sample.create "bob" "secret" in
  let login := Sample.login "bob" "secret" in
  let fetch := Sample.fetch "bob" (Some ("Bearer " ++ Sample.alice_token)) in
  let fields : Doc := <["pw" := JsString "secret"]> ∅ in
  ("bob" <> "" /\ "secret" <> ""
   /\ (1 < length (UserDatabase.find Sample.doubled "bob"))%nat
   /\ decodeURIComponent (params_id create) = Some "bob"
   /\ decodeURIComponent (query_pw create) = Some "secret"
   /\ truthy (body create) = true
   /\ decodeURIComponent (params_id login) = Some "bob"
   /\ body login = JsObject fields /\ fields !! "pw" = Some (JsString "secret")
   /\ decodeURIComponent (params_id fetch) = Some "bob"
   /\ now Sample.later < now Sample.issued + Server.authTimeout Sample.this)
  /\ Server.createUser Sample.this Sample.later Sample.doubled create
     = (Sample.doubled, Server.internal_server_error)
  /\ Server.logIn Sample.this Sample.later Sample.doubled login
     = (Sample.doubled, Server.internal_server_error)
  /\ Server.getUser Sample.this Sample.later Sample.doubled fetch
     = (Sample.doubled, Server.internal_server_error).
Proof.
  intros create login fetch fields.
  assert (h1 : "bob" <> "") by discriminate.
  assert (h2 : "secret" <> "") by discriminate.
  assert (h3 : (1 < length (UserDatabase.find Sample.doubled "bob"))%nat)
    by (vm_compute; lia).
  assert (h4 : decodeURIComponent (params_id create) = Some "bob") by reflexivity.
  assert (h5 : decodeURIComponent (query_pw create) = Some "secret") by reflexivity.
  assert (h6 : truthy (body create) = true) by reflexivity.
  assert (h7 : decodeURIComponent (params_id login) = Some "bob") by reflexivity.
  assert (h8 : body login = JsObject fields) by reflexivity.
  assert (h9 : fields !! "pw" = Some (JsString "secret")) by (vm_compute; reflexivity).
  assert (h10 : decodeURIComponent (params_id fetch) = Some "bob") by reflexivity.
  assert (h11 : now Sample.later < now Sample.issued + Server.authTimeout Sample.this)
    by (vm_compute; reflexivity).
  pose proof (@multiple_docs_are_an_internal_error reference_bcrypt reference_jws
                Sample.this Sample.issued Sample.later Sample.doubled "bob" "secret"
                "alice" create login fetch fields
                h1 h2 h3 h4 h5 h6 h7 h8 h9 h10 eq_refl h11)
    as (_ & _ & _ & Hcreate & Hlogin & Hfetch & _).
  exact (conj
    (conj h1 (conj h2 (conj h3 (conj h4 (conj h5 (conj h6 (conj h7 (conj h8
       (conj h9 (conj h10 h11))))))))))
    (conj Hcreate (conj Hlogin Hfetch))).
Defined.

Lemma bearer_scheme_is_case_insensitive_witness :
  let req := Sample.fetch "bob" (Some ("BEARER " ++ Sample.alice_token)) in
  (decodeURIComponent (params_id req) = Some "bob" /\ "bob" <> ""
   /\ toLowerCase "BEARER" = "bearer"
   /\ Sample.alice_token <> "" /\ no_space Sample.alice_token = true)
  /\ Server.getUser Sample.this Sample.later Sample.users req
     = Server.getUser_with_token Sample.this Sample.later Sample.users "bob"
         Sample.alice_token
  /\ (Server.checkAuthToken Sample.this Sample.later Sample.alice_token = true ->
      status_of (Server.getUser Sample.this Sample.later Sample.users req).2 <> Some 401).
Proof.
  intros req.
  assert (h1 : decodeURIComponent (params_id req) = Some "bob") by reflexivity.
  assert (h2 : "bob" <> "") by discriminate.
  assert (h3 : toLowerCase "BEARER" = "bearer") by reflexivity.
  assert (h4 : Sample.alice_token <> "") by discriminate.
  assert (h5 : no_space Sample.alice_token = true) by (vm_compute; reflexivity).
  exact (conj (conj h1 (conj h2 (conj h3 (conj h4 h5))))
    (@bearer_scheme_is_case_insensitive reference_jws Sample.this Sample.later
       Sample.users req "bob" "BEARER" Sample.alice_token h1 h2 eq_refl h3 h4 h5)).
Defined.

(** The run of section 8 of the specification, end to end: create [bob],
    fetch the profile with the token of the answer, log in with a wrong
    password, fetch [ghost]. *)
Lemma end_to_end :
  let created := Server.createUser Sample.this Sample.issued [] (Sample.create "bob" "secret") in
  let token := Server.createAuthToken Sample.this Sample.issued "bob" in
  status_of created.2 = Some 201
  /\ get_prop (match created.2 with Responded r => payload r | _ => JsUndefined end)
       "authToken" = JsString token
  /\ (Server.getUser Sample.this Sample.later created.1
        (Sample.fetch "bob" (Some ("Bearer " ++ token)))).2
     = Server.json (JsObject Sample.profile)
  /\ status_of (Server.logIn Sample.this Sample.later created.1
                  (Sample.login "bob" "wrong")).2 = Some 401
  /\ status_of (Server.getUser Sample.this Sample.later created.1
                  (Sample.fetch "ghost" (Some ("Bearer " ++ token)))).2 = Some 404.
Proof. vm_compute. repeat split. Qed.

(** * Further properties of the store, the tokens and the handlers *)

(** ** Strings *)

Lemma split_not_nil (sep : ascii) (s : string) : split sep s <> [].
Proof.
  induction s as [|c s IH]; simpl; [discriminate|].
  destruct (Ascii.eqb c sep); [discriminate|].
  destruct (split sep s); discriminate.
Qed.

Lemma join_cons_char (sep c : ascii) (piece : string) (pieces : list string) :
  join sep (String c piece :: pieces) = String c (join sep (piece :: pieces)).
Proof. destruct pieces; reflexivity. Qed.

(** [split] loses nothing: the pieces joined with the separator give the
    string back; there is always at least one piece, and no piece contains
    the separator. *)
Theorem split_join (sep : ascii) (s : string) :
  join sep (split sep s) = s
  /\ split sep s <> []
  /\ Forall (fun piece => has_char sep piece = false) (split sep s).
Proof.
  split; [|split; [apply split_not_nil|]].
  - induction s as [|c s IH]; simpl; [reflexivity|].
    destruct (Ascii.eqb_spec c sep) as [->|Hne].
    + pose proof (split_not_nil sep s) as Hnn.
      destruct (split sep s) as [|piece pieces]; [contradiction|].
      change (join sep ("" :: piece :: pieces))
        with ("" ++ String sep (join sep (piece :: pieces))).
      rewrite IH. reflexivity.
    + pose proof (split_not_nil sep s) as Hnn.
      destruct (split sep s) as [|piece pieces]; [contradiction|].
      rewrite join_cons_char, IH. reflexivity.
  - induction s as [|c s IH]; simpl; [repeat constructor|].
    destruct (Ascii.eqb_spec c sep) as [->|Hne].
    + constructor; [reflexivity | exact IH].
    + destruct (split sep s) as [|piece pieces].
      * repeat constructor. simpl.
        destruct (Ascii.eqb_spec c sep); [contradiction | reflexivity].
      * inversion IH as [|? ? Hp Hps]; subst. constructor; [|exact Hps].
        simpl. rewrite Hp.
        destruct (Ascii.eqb_spec c sep); [contradiction | reflexivity].
Qed.

Lemma uri_units_plain (c : ascii) (rest : string) :
  Ascii.eqb c "%" = false ->
  uri_units (String c rest)
  = match uri_units rest with
    | Some us => Some (Plain c :: us)
    | None => None
    end.
Proof.
  destruct c as [[] [] [] [] [] [] [] []]; intros Hc;
    first [discriminate Hc | reflexivity].
Qed.

(** X1. [decodeURIComponent] gives back unchanged every string that has no
    [%]: the handlers address such a path identifier as it was sent. *)
Theorem decodeURIComponent_without_percent (s : string) :
  has_char "%" s = false -> decodeURIComponent (JsString s) = Some s.
Proof.
  unfold decodeURIComponent. simpl to_string. intros Hs.
  assert (Hunits : uri_units s = Some (map Plain (list_ascii_of_string s))).
  { induction s as [|c s IH]; [reflexivity|].
    simpl in Hs. apply orb_false_iff in Hs as [Hc Hs].
    rewrite (uri_units_plain c s Hc), (IH Hs). reflexivity. }
  rewrite Hunits. simpl. clear.
  induction s as [|c s IH]; [reflexivity|].
  simpl. rewrite IH. reflexivity.
Qed.

(** ** The store *)

(** What a call of [createUser] can do: leave the collection as it was and
    end in ["already exists"], a rejection or a promise never settled; or add
    the one document it built and resolve with [true]. *)
Lemma createUser_cases `{Bcrypt} (users : list Doc) (salt : string)
    (id password data : JsValue) :
  ((UserDatabase.createUser users salt id password data).1 = users
   /\ ((UserDatabase.createUser users salt id password data).2
        = Resolved (JsString "already exists")
       \/ (UserDatabase.createUser users salt id password data).2 = Pending
       \/ exists message,
            (UserDatabase.createUser users salt id password data).2 = Rejected message))
  \/ exists id_s password_s fields,
       id = JsString id_s /\ password = JsString password_s /\ data = JsObject fields
       /\ id_s <> "" /\ password_s <> "" /\ UserDatabase.find users id_s = []
       /\ UserDatabase.createUser users salt id password data
          = ((users ++ [new_doc salt id_s password_s fields])%list, Resolved (JsBool true)).
Proof.
  unfold UserDatabase.createUser.
  destruct (negb (truthy id) || negb (is_string id) || negb (truthy password)
            || negb (is_string password) || negb (truthy data)) eqn:Hguard;
    [left; split; [reflexivity | right; right; eexists; reflexivity]|].
  apply orb_false_iff in Hguard as [Hguard Hdata].
  apply orb_false_iff in Hguard as [Hguard Hpws].
  apply orb_false_iff in Hguard as [Hguard Hpwt].
  apply orb_false_iff in Hguard as [Hidt Hids].
  destruct id as [| | | |id_s|]; try discriminate Hids.
  destruct password as [| | | |password_s|]; try discriminate Hpws.
  cbv zeta.
  destruct (UserDatabase.find users id_s) as [|doc [|doc' more]] eqn:Hfind;
    simpl length; simpl Nat.eqb; cbv iota.
  - destruct data as [| | | | |fields];
      try (left; split; [reflexivity | right; left; reflexivity]).
    right. exists id_s, password_s, fields.
    apply negb_false_iff, truthy_string in Hidt.
    apply negb_false_iff, truthy_string in Hpwt.
    repeat split; assumption.
  - left; split; [reflexivity | left; reflexivity].
  - left; split; [reflexivity | right; right; eexists; reflexivity].
Qed.

(** X2. The store rejects with [Invalid parameters] exactly when its guard
    fails: [getUser] when the identifier is falsy or not a string,
    [checkPassword] when that holds of the identifier or of the password,
    [createUser] when moreover the data is falsy. No other path produces this
    error, and a rejected call leaves the collection as it was. *)
Theorem invalid_parameters_iff_guard `{Bcrypt} (users : list Doc) (salt : string)
    (id password data : JsValue) :
  (UserDatabase.getUser users id = (users, Rejected "Invalid parameters")
   <-> truthy id && is_string id = false)
  /\ (UserDatabase.checkPassword users id password = (users, Rejected "Invalid parameters")
      <-> truthy id && is_string id && truthy password && is_string password = false)
  /\ (UserDatabase.createUser users salt id password data
      = (users, Rejected "Invalid parameters")
      <-> truthy id && is_string id && truthy password && is_string password
          && truthy data = false).
Proof.
  unfold UserDatabase.getUser, UserDatabase.checkPassword, UserDatabase.createUser,
    UserDatabase.invalid_parameters, UserDatabase.multiple_docs.
  destruct (truthy id) eqn:Hti, (is_string id) eqn:Hsi; simpl;
    try (repeat split; reflexivity).
  destruct id as [| | | |id_s|]; try discriminate Hsi.
  split; [|split].
  - destruct (UserDatabase.find users id_s) as [|doc [|doc' more]];
      split; discriminate.
  - destruct (truthy password) eqn:Htp, (is_string password) eqn:Hsp; simpl;
      try (split; reflexivity).
    destruct password as [| | | |password_s|]; try discriminate Hsp.
    destruct (UserDatabase.find users id_s) as [|doc [|doc' more]];
      try (split; discriminate).
    unfold get_prop.
    destruct (doc !! "_pw") as [[| | | |hashed|]|]; simpl;
      try (split; discriminate).
    destruct (bcrypt_compare password_s hashed); split; discriminate.
  - destruct (truthy password) eqn:Htp, (is_string password) eqn:Hsp; simpl;
      try (split; reflexivity).
    destruct password as [| | | |password_s|]; try discriminate Hsp.
    destruct (truthy data) eqn:Htd; simpl; [|split; reflexivity].
    destruct (UserDatabase.find users id_s) as [|doc [|doc' more]]; simpl;
      try (split; discriminate).
    destruct data; split; discriminate.
Qed.

Lemma find_other_created `{Bcrypt} (users : list Doc) (salt id password other : string)
    (fields : Doc) :
  other <> id ->
  UserDatabase.find (users ++ [new_doc salt id password fields]) other
  = UserDatabase.find users other.
Proof.
  intros Hne. rewrite find_app. unfold UserDatabase.find at 2. simpl.
  destruct (UserDatabase.matches_id other _) eqn:Hm; [|apply app_nil_r].
  apply matches_id_spec in Hm. unfold new_doc in Hm.
  rewrite lookup_insert_ne in Hm by discriminate.
  rewrite lookup_insert_eq in Hm. congruence.
Qed.

Lemma store_reads_by_find `{Bcrypt} (users users' : list Doc) (id : string)
    (password : JsValue) :
  UserDatabase.find users' id = UserDatabase.find users id ->
  (UserDatabase.checkPassword users' (JsString id) password).2
  = (UserDatabase.checkPassword users (JsString id) password).2
  /\ (UserDatabase.getUser users' (JsString id)).2
     = (UserDatabase.getUser users (JsString id)).2.
Proof.
  intros Hfind. unfold UserDatabase.checkPassword, UserDatabase.getUser.
  split.
  - destruct (negb (truthy (JsString id)) || negb (is_string (JsString id))
              || negb (truthy password) || negb (is_string password));
      [reflexivity|].
    destruct password as [| | | |password_s|]; try reflexivity. rewrite Hfind.
    destruct (UserDatabase.find users id) as [|doc [|doc' more]]; try reflexivity.
    destruct (get_prop (JsObject doc) "_pw") as [| | | |hashed|]; try reflexivity.
    destruct (bcrypt_compare password_s hashed); reflexivity.
  - destruct (negb (truthy (JsString id)) || negb (is_string (JsString id)));
      [reflexivity|].
    rewrite Hfind.
    destruct (UserDatabase.find users id) as [|doc [|doc' more]]; reflexivity.
Qed.

(** X3. A call of [createUser] never removes or alters a document: the
    collection it leaves is the old one followed by at most one document.
    It does not touch any other account: for an identifier other than the
    one created, [checkPassword] and [getUser] end as they did before. *)
Theorem createUser_leaves_other_accounts `{Bcrypt} (users : list Doc) (salt : string)
    (id password data : JsValue) (other : string) (attempt : JsValue) :
  id <> JsString other ->
  let users' := (UserDatabase.createUser users salt id password data).1 in
  (exists added, users' = (users ++ added)%list /\ (length added <= 1)%nat)
  /\ (UserDatabase.checkPassword users' (JsString other) attempt).2
     = (UserDatabase.checkPassword users (JsString other) attempt).2
  /\ (UserDatabase.getUser users' (JsString other)).2
     = (UserDatabase.getUser users (JsString other)).2.
Proof.
  intros Hne users'. subst users'.
  destruct (createUser_cases users salt id password data)
    as [[Hsame _] | (id_s & password_s & fields & -> & -> & -> & _ & _ & _ & Hnew)].
  - rewrite Hsame. split; [exists []; split; [symmetry; apply app_nil_r | simpl; lia]|].
    split; reflexivity.
  - rewrite Hnew. simpl.
    split; [exists [new_doc salt id_s password_s fields]; split; [reflexivity | simpl; lia]|].
    apply store_reads_by_find, find_other_created. congruence.
Qed.

Lemma createUsers_keeps_unique_ids `{Bcrypt} (calls : list Creation) (users : list Doc) :
  unique_ids users -> unique_ids (createUsers users calls).
Proof.
  revert users. induction calls as [|call calls IH]; intros users Huniq; [exact Huniq|].
  simpl. apply IH, createUser_keeps_unique_ids, Huniq.
Qed.

(** X4. Starting from the empty collection, after any calls of [createUser]
    made one after the other, every identifier has at most one document, and
    none of [createUser], [checkPassword] and [getUser] rejects with the
    multiple-documents error. *)
Theorem sequential_creation_keeps_ids_unique `{Bcrypt} (calls : list Creation)
    (salt id : string) (password data : JsValue) :
  let users := createUsers [] calls in
  unique_ids users
  /\ (UserDatabase.createUser users salt (JsString id) password data).2
     <> Rejected ("Multiple docs found for user with id " ++ id)
  /\ (UserDatabase.checkPassword users (JsString id) password).2
     <> Rejected ("Multiple docs found for user with id " ++ id)
  /\ (UserDatabase.getUser users (JsString id)).2
     <> Rejected ("Multiple docs found for user with id " ++ id).
Proof.
  intros users.
  assert (Huniq : unique_ids users).
  { apply createUsers_keeps_unique_ids. intros other. simpl. lia. }
  split; [exact Huniq|]. specialize (Huniq id).
  unfold UserDatabase.createUser, UserDatabase.checkPassword, UserDatabase.getUser,
    UserDatabase.invalid_parameters, UserDatabase.multiple_docs.
  split; [|split].
  - destruct (negb (truthy (JsString id)) || negb (is_string (JsString id))
              || negb (truthy password) || negb (is_string password)
              || negb (truthy data)); [discriminate|].
    destruct password as [| | | |password_s|]; try discriminate. cbv zeta.
    destruct (UserDatabase.find users id) as [|doc [|doc' more]];
      simpl in Huniq |- *; try discriminate; [|lia].
    destruct data; discriminate.
  - destruct (negb (truthy (JsString id)) || negb (is_string (JsString id))
              || negb (truthy password) || negb (is_string password)); [discriminate|].
    destruct password as [| | | |password_s|]; try discriminate.
    destruct (UserDatabase.find users id) as [|doc [|doc' more]];
      simpl in Huniq; try discriminate; [|lia].
    unfold get_prop.
    destruct (doc !! "_pw") as [[| | | |hashed|]|]; simpl; try discriminate.
    destruct (bcrypt_compare password_s hashed); discriminate.
  - destruct (negb (truthy (JsString id)) || negb (is_string (JsString id)));
      [discriminate|].
    destruct (UserDatabase.find users id) as [|doc [|doc' more]];
      simpl in Huniq; try discriminate. lia.
Qed.

(** X5. What [createUser] stores, [getUser] gives back: after [createUser]
    on an identifier the collection did not have, [getUser] resolves with
    the profile without any [_id] and [_pw] field of its own; a profile that
    has neither comes back exactly as it was given. *)
Theorem getUser_after_createUser `{Bcrypt} (users : list Doc)
    (salt id password : string) (profile : Doc) :
  id <> "" -> password <> "" -> absent id users ->
  let users' :=
    (UserDatabase.createUser users salt (JsString id) (JsString password)
       (JsObject profile)).1 in
  UserDatabase.getUser users' (JsString id)
  = (users', Resolved (JsObject (delete "_pw" (delete "_id" profile))))
  /\ (profile !! "_id" = None -> profile !! "_pw" = None ->
      UserDatabase.getUser users' (JsString id) = (users', Resolved (JsObject profile))).
Proof.
  intros Hid Hpw Habs users'. subst users'.
  rewrite (createUser_fresh users salt id password profile Hid Hpw Habs). simpl.
  rewrite (getUser_one _ id (new_doc salt id password profile) Hid
             (find_created users salt id password profile Habs)).
  assert (Hstrip : delete "_pw" (delete "_id" (new_doc salt id password profile))
                   = delete "_pw" (delete "_id" profile)).
  { unfold new_doc. rewrite delete_insert_ne by discriminate.
    rewrite delete_insert_eq, delete_insert_eq. reflexivity. }
  rewrite Hstrip. split; [reflexivity|].
  intros Hnid Hnpw. rewrite (delete_id profile "_id") by assumption.
  rewrite (delete_id profile "_pw") by assumption. reflexivity.
Qed.

(** ** Tokens *)

(** X7. Once a token is active, a refusal is final: for any token string
    that carries no not-before time, or one that has come, a refusal by
    [checkAuthToken] is repeated at every later clock reading. Expiry is
    never undone. *)
Theorem refused_token_stays_refused `{Jws} (this : Server.Server) (env env' : Env)
    (token : string) :
  now env <= now env' ->
  (forall payload nbf,
     jws_verify Server.authSecret token = Some payload ->
     jwt_nbf payload = Some nbf -> nbf <= now env) ->
  Server.checkAuthToken this env token = false ->
  Server.checkAuthToken this env' token = false.
Proof.
  intros Hlater Hactive. unfold Server.checkAuthToken, jwt.verify.
  destruct (jws_verify Server.authSecret token) as [payload|]; [|reflexivity].
  assert (Hnbf : forall t, now env <= t ->
            match jwt_nbf payload with Some nbf => t <? nbf | None => false end = false).
  { intros t Ht. destruct (jwt_nbf payload) as [nbf|] eqn:Hn; [|reflexivity].
    specialize (Hactive payload nbf eq_refl Hn). apply Z.ltb_ge. lia. }
  rewrite (Hnbf (now env) (Z.le_refl _)), (Hnbf (now env') Hlater).
  destruct (jwt_exp payload) as [exp|].
  - destruct (Z.leb_spec exp (now env)), (Z.leb_spec exp (now env'));
      try reflexivity; try lia.
    destruct (Server.authTimeout this =? 0); [discriminate|].
    destruct (jwt_iat payload) as [iat|]; [|reflexivity].
    destruct (Z.leb_spec (iat + Server.authTimeout this) (now env)),
      (Z.leb_spec (iat + Server.authTimeout this) (now env'));
      try reflexivity; try discriminate; lia.
  - destruct (Server.authTimeout this =? 0); [discriminate|].
    destruct (jwt_iat payload) as [iat|]; [|reflexivity].
    destruct (Z.leb_spec (iat + Server.authTimeout this) (now env)),
      (Z.leb_spec (iat + Server.authTimeout this) (now env'));
      try reflexivity; try discriminate; lia.
Qed.

(** X8. Tokens name their subject and their time of issue: two tokens
    minted by the same server are the same string only when they were minted
    for the same identifier at the same clock reading. *)
Theorem createAuthToken_injective `{Jws} (this : Server.Server) (env env' : Env)
    (id id' : string) :
  Server.createAuthToken this env id = Server.createAuthToken this env' id' ->
  id = id' /\ now env = now env'.
Proof.
  unfold Server.createAuthToken, jwt.sign. intros Heq.
  apply (f_equal (jws_verify Server.authSecret)) in Heq.
  rewrite !jws_verify_sign in Heq. injection Heq as Hid Hnow _.
  split; assumption.
Qed.

(** X9. With a timeout of zero or less the server mints tokens that are
    never accepted: at the time of issue and at any later time
    [checkAuthToken] refuses them. *)
Theorem nonpositive_authTimeout_refuses_all `{Jws} (this : Server.Server)
    (env0 env : Env) (id : string) :
  Server.authTimeout this <= 0 -> now env0 <= now env ->
  Server.checkAuthToken this env (Server.createAuthToken this env0 id) = false.
Proof.
  intros Ht Hnow. rewrite checkAuthToken_minted. apply Z.ltb_ge. lia.
Qed.

(** ** The handlers *)

Lemma no_reserved_field_in_info (code : Z) (hs : list (string * string))
    (status info k : string) :
  k <> "status" -> k <> "info" ->
  get_prop (payload_of (Server.send_info code hs status info)) k = JsUndefined.
Proof.
  intros Hs Hi. unfold Server.send_info, payload_of, get_prop. simpl.
  rewrite !lookup_insert_ne by congruence. rewrite lookup_empty. reflexivity.
Qed.

Lemma no_reserved_field_in_token (code : Z) (hs : list (string * string))
    (status token k : string) :
  k <> "status" -> k <> "authToken" ->
  get_prop (payload_of (Server.send_token code hs status token)) k = JsUndefined.
Proof.
  intros Hs Hi. unfold Server.send_token, payload_of, get_prop. simpl.
  rewrite !lookup_insert_ne by congruence. rewrite lookup_empty. reflexivity.
Qed.

(** What the store's [getUser] can resolve with. *)
Lemma getUser_cases (users : list Doc) (id : JsValue) :
  (UserDatabase.getUser users id).1 = users
  /\ ((UserDatabase.getUser users id).2 = Resolved (JsString "not found")
      \/ (exists doc, (UserDatabase.getUser users id).2
                      = Resolved (JsObject (delete "_pw" (delete "_id" doc))))
      \/ exists message, (UserDatabase.getUser users id).2 = Rejected message).
Proof.
  split; [apply getUser_reads|]. unfold UserDatabase.getUser.
  destruct (negb (truthy id) || negb (is_string id));
    [right; right; eexists; reflexivity|].
  destruct id as [| | | |id_s|]; try (right; right; eexists; reflexivity).
  destruct (UserDatabase.find users id_s) as [|doc [|doc' more]].
  - left. reflexivity.
  - right. left. exists doc. reflexivity.
  - right. right. eexists. reflexivity.
Qed.

(** What the store's [checkPassword] can end in. *)
Lemma checkPassword_cases `{Bcrypt} (users : list Doc) (id password : JsValue) :
  (UserDatabase.checkPassword users id password).2 = Resolved (JsString "not found")
  \/ (exists verdict, (UserDatabase.checkPassword users id password).2
                      = Resolved (JsBool verdict))
  \/ (UserDatabase.checkPassword users id password).2 = Pending
  \/ exists message, (UserDatabase.checkPassword users id password).2 = Rejected message.
Proof.
  unfold UserDatabase.checkPassword.
  destruct (negb (truthy id) || negb (is_string id) || negb (truthy password)
            || negb (is_string password));
    [right; right; right; eexists; reflexivity|].
  destruct id as [| | | |id_s|]; try (right; right; right; eexists; reflexivity).
  destruct password as [| | | |password_s|];
    try (right; right; right; eexists; reflexivity).
  destruct (UserDatabase.find users id_s) as [|doc [|doc' more]].
  - left. reflexivity.
  - unfold get_prop.
    destruct (doc !! "_pw") as [[| | | |hashed|]|]; simpl;
      try (right; right; left; reflexivity).
    right. left. exists (bcrypt_compare password_s hashed).
    destruct (bcrypt_compare password_s hashed); reflexivity.
  - right. right. right. eexists. reflexivity.
Qed.

(** What the create-account handler can do to the collection: nothing, and
    then the answer is not 201; or add one document, and then the answer is
    201, or 500 when Node refused the value of the [Location] header. *)
Lemma Server_createUser_cases `{Bcrypt} `{Jws} (this : Server.Server) (env : Env)
    (users : list Doc) (req : Request) :
  ((Server.createUser this env users req).1 = users
   /\ status_of (Server.createUser this env users req).2 <> Some 201)
  \/ exists id doc,
       decodeURIComponent (params_id req) = Some id
       /\ (Server.createUser this env users req).1 = (users ++ [doc])%list
       /\ ((valid_header_value (Server.getRequestBaseUrl this req ++ "users/" ++ id) = true
            /\ status_of (Server.createUser this env users req).2 = Some 201)
           \/ (valid_header_value (Server.getRequestBaseUrl this req ++ "users/" ++ id)
                = false
               /\ status_of (Server.createUser this env users req).2 = Some 500)).
Proof.
  unfold Server.createUser.
  destruct (decodeURIComponent (params_id req)) as [id|];
    [|left; split; [reflexivity | discriminate]].
  destruct (decodeURIComponent (query_pw req)) as [password|];
    [|left; split; [reflexivity | discriminate]].
  destruct (negb (truthy (JsString id)) || negb (truthy (JsString password))
            || negb (truthy (body req))); [left; split; [reflexivity | discriminate]|].
  destruct (createUser_cases users (salt env) (JsString id) (JsString password)
              (body req))
    as [[Hsame Hend] | (id_s & password_s & fields & _ & _ & _ & _ & _ & _ & Hnew)].
  - left.
    destruct (UserDatabase.createUser users (salt env) (JsString id)
                (JsString password) (body req)) as [users' promise].
    simpl in Hsame, Hend. subst users'.
    destruct Hend as [-> | [-> | [message ->]]]; cbv zeta; cbn [snd];
      try (split; [reflexivity | discriminate]).
    destruct (negb (valid_header_value _)); split; first [reflexivity | discriminate].
  - right. exists id. eexists. split; [reflexivity|].
    rewrite Hnew. cbv zeta. cbn [snd].
    destruct (valid_header_value (Server.getRequestBaseUrl this req ++ "users/" ++ id));
      cbn [negb]; (split; [reflexivity|]).
    + left. split; reflexivity.
    + right. split; reflexivity.
Qed.

(** X10. Only account creation writes. For every request the log-in handler
    and the fetch-profile handler leave the collection as it was. The
    create-account handler only ever adds one document at the end: it has
    added one when it answers 201, and none when it answers anything else,
    with one exception: when Node refuses the value of the [Location] header
    the answer 500 comes after the insert. *)
Theorem only_account_creation_writes `{Bcrypt} `{Jws} (this : Server.Server) (env : Env)
    (users : list Doc) (req : Request) :
  (Server.logIn this env users req).1 = users
  /\ (Server.getUser this env users req).1 = users
  /\ (exists added, (Server.createUser this env users req).1 = (users ++ added)%list
                    /\ (length added <= 1)%nat)
  /\ (status_of (Server.createUser this env users req).2 = Some 201 ->
      exists doc, (Server.createUser this env users req).1 = (users ++ [doc])%list)
  /\ (status_of (Server.createUser this env users req).2 <> Some 201 ->
      (forall id, decodeURIComponent (params_id req) = Some id ->
         valid_header_value (Server.getRequestBaseUrl this req ++ "users/" ++ id) = true) ->
      (Server.createUser this env users req).1 = users)
  /\ (status_of (Server.createUser this env users req).2 <> Some 201 ->
      status_of (Server.createUser this env users req).2 <> Some 500 ->
      (Server.createUser this env users req).1 = users).
Proof.
  split; [|split].
  - unfold Server.logIn.
    destruct (decodeURIComponent (params_id req)) as [id|]; [|reflexivity].
    destruct (negb (truthy (JsString id)) || negb (truthy (body req))); [reflexivity|].
    destruct (negb (truthy (get_prop (body req) "pw"))); [reflexivity|].
    pose proof (checkPassword_reads users (JsString id) (get_prop (body req) "pw")) as Hr.
    destruct (UserDatabase.checkPassword users (JsString id) (get_prop (body req) "pw"))
      as [users' [result| |]]; simpl in Hr; subst users'; try reflexivity.
    destruct (strict_eq_string result "not found"); [reflexivity|].
    destruct (strict_eq_bool result false); [reflexivity|].
    destruct (strict_eq_bool result true); reflexivity.
  - unfold Server.getUser, Server.getUser_with_token.
    destruct (decodeURIComponent (params_id req)) as [id|]; [|reflexivity].
    destruct (negb (truthy (JsString id))); [reflexivity|].
    destruct (authorization req) as [authValue|]; [|reflexivity].
    match goal with |- (if ?c then _ else _).1 = _ => destruct c end; [reflexivity|].
    match goal with |- (if ?c then _ else _).1 = _ => destruct c end; [|reflexivity].
    pose proof (getUser_reads users (JsString id)) as Hr.
    destruct (UserDatabase.getUser users (JsString id)) as [users' [result| |]];
      simpl in Hr; subst users'; try reflexivity.
    destruct (strict_eq_string result "not found"); reflexivity.
  - destruct (Server_createUser_cases this env users req)
      as [[Hsame Hnot] | (id & doc & Hid & Hnew & Hstatus)].
    + split; [exists []; split; [rewrite Hsame; symmetry; apply app_nil_r | simpl; lia]|].
      split; [intros H201; contradiction|].
      split; intros; exact Hsame.
    + split; [exists [doc]; split; [exact Hnew | simpl; lia]|].
      split; [intros _; exists doc; exact Hnew|].
      destruct Hstatus as [[Hvalid H201] | [Hinvalid H500]].
      * split; intros Hnot; contradiction.
      * split.
        -- intros _ Hall. rewrite (Hall id Hid) in Hinvalid. discriminate Hinvalid.
        -- intros _ Hnot. contradiction.
Qed.

Ltac no_reserved_field :=
  cbn [snd];
  first [ apply no_reserved_field_in_info; assumption
        | apply no_reserved_field_in_token; assumption ].

(** X11. No response of any handler has a field named [_pw] or [_id] in its
    body: the stored hash never leaves through the three operations. *)
Theorem responses_never_carry_the_hash `{Bcrypt} `{Jws} (this : Server.Server)
    (env : Env) (users : list Doc) (req : Request) (k : string) :
  k = "_pw" \/ k = "_id" ->
  get_prop (payload_of (Server.createUser this env users req).2) k = JsUndefined
  /\ get_prop (payload_of (Server.logIn this env users req).2) k = JsUndefined
  /\ get_prop (payload_of (Server.getUser this env users req).2) k = JsUndefined.
Proof.
  intros Hk.
  assert (Hs : k <> "status") by (destruct Hk as [-> | ->]; discriminate).
  assert (Hi : k <> "info") by (destruct Hk as [-> | ->]; discriminate).
  assert (Ht : k <> "authToken") by (destruct Hk as [-> | ->]; discriminate).
  split; [|split].
  - unfold Server.createUser, Server.internal_server_error.
    destruct (decodeURIComponent (params_id req)) as [id|]; [|reflexivity].
    destruct (decodeURIComponent (query_pw req)) as [password|]; [|reflexivity].
    destruct (negb (truthy (JsString id)) || negb (truthy (JsString password))
              || negb (truthy (body req))); [no_reserved_field|].
    destruct (UserDatabase.createUser users (salt env) (JsString id)
                (JsString password) (body req)) as [users' [result| |]];
      [|no_reserved_field | reflexivity].
    cbv zeta. cbn [snd].
    destruct (negb (valid_header_value _)); [no_reserved_field|].
    destruct (strict_eq_string result "already exists"); no_reserved_field.
  - unfold Server.logIn, Server.internal_server_error.
    destruct (decodeURIComponent (params_id req)) as [id|]; [|reflexivity].
    destruct (negb (truthy (JsString id)) || negb (truthy (body req)));
      [no_reserved_field|].
    destruct (negb (truthy (get_prop (body req) "pw"))); [no_reserved_field|].
    destruct (UserDatabase.checkPassword users (JsString id) (get_prop (body req) "pw"))
      as [users' [result| |]]; [|no_reserved_field | reflexivity].
    destruct (strict_eq_string result "not found"); [no_reserved_field|].
    destruct (strict_eq_bool result false); [no_reserved_field|].
    destruct (strict_eq_bool result true); [no_reserved_field | reflexivity].
  - unfold Server.getUser, Server.getUser_with_token, Server.unauthorized,
      Server.internal_server_error.
    destruct (decodeURIComponent (params_id req)) as [id|]; [|reflexivity].
    destruct (negb (truthy (JsString id))); [no_reserved_field|].
    destruct (authorization req) as [authValue|]; [|no_reserved_field].
    match goal with |- get_prop (payload_of (if ?c then _ else _).2) _ = _ =>
      destruct c end; [no_reserved_field|].
    match goal with |- get_prop (payload_of (if ?c then _ else _).2) _ = _ =>
      destruct c end; [|no_reserved_field].
    destruct (getUser_cases users (JsString id)) as [_ Hend].
    destruct (UserDatabase.getUser users (JsString id)) as [users' promise].
    simpl in Hend.
    destruct Hend as [-> | [[doc ->] | [message ->]]]; cbn [strict_eq_string String.eqb].
    + no_reserved_field.
    + cbn [snd Server.json payload_of payload get_prop].
      destruct Hk as [-> | ->].
      * rewrite lookup_delete_eq. reflexivity.
      * rewrite lookup_delete_ne by discriminate. rewrite lookup_delete_eq. reflexivity.
    + no_reserved_field.
Qed.

Lemma uri_units_trailing_percent (n : nat) (s : string) :
  (String.length s <= n)%nat -> uri_units (s ++ "%") = None.
Proof.
  revert s. induction n as [|n IH]; intros s Hlen.
  - destruct s; [reflexivity | simpl in Hlen; lia].
  - destruct s as [|c s]; [reflexivity|].
    destruct (Ascii.eqb c "%") eqn:Hc.
    + apply Ascii.eqb_eq in Hc. subst c.
      destruct s as [|h [|l rest]]; [reflexivity | |].
      * change (uri_units (String "%" (String h (String "%" EmptyString))) = None).
        simpl. destruct (hex_digit h); reflexivity.
      * change (uri_units (String "%" (String h (String l (rest ++ "%")))) = None).
        simpl. rewrite (IH rest) by (simpl in Hlen; lia).
        destruct (hex_digit h), (hex_digit l); reflexivity.
    + change (uri_units (String c (s ++ "%")) = None).
      rewrite (uri_units_plain c _ Hc), (IH s) by (simpl in Hlen; lia).
      reflexivity.
Qed.

(** X12. The handlers decode the path identifier once more than the
    router has: an identifier that ends in [%] makes each of the three
    handlers throw before it checks or reads anything; nothing is answered by
    the handler and the collection is untouched. *)
Theorem trailing_percent_id_throws `{Bcrypt} `{Jws} (this : Server.Server) (env : Env)
    (users : list Doc) (req : Request) (prefix : string) :
  params_id req = JsString (prefix ++ "%") ->
  Server.createUser this env users req = (users, Threw "URIError")
  /\ Server.logIn this env users req = (users, Threw "URIError")
  /\ Server.getUser this env users req = (users, Threw "URIError").
Proof.
  intros Hid.
  assert (Hdec : decodeURIComponent (params_id req) = None).
  { rewrite Hid. unfold decodeURIComponent. simpl to_string.
    rewrite (uri_units_trailing_percent (String.length prefix) prefix (le_n _)).
    reflexivity. }
  unfold Server.createUser, Server.logIn, Server.getUser. rewrite Hdec.
  repeat split.
Qed.


Lemma string_app_assoc (a b c : string) : (a ++ b) ++ c = a ++ (b ++ c).
Proof.
  induction a as [|x a IH]; [reflexivity|].
  change (String x ((a ++ b) ++ c) = String x (a ++ (b ++ c))). rewrite IH. reflexivity.
Qed.

Lemma createUser_passes_guard `{Bcrypt} `{Jws} (this : Server.Server) (env : Env)
    (users : list Doc) (req : Request) (id password : string) :
  decodeURIComponent (params_id req) = Some id -> id <> "" ->
  decodeURIComponent (query_pw req) = Some password -> password <> "" ->
  truthy (body req) = true ->
  Server.createUser this env users req
  = let '(users', promise) :=
      UserDatabase.createUser users (salt env) (JsString id) (JsString password)
        (body req) in
    match promise with
    | Resolved result =>
        let location :=
          ("Location", Server.getRequestBaseUrl this req ++ "users/" ++ id) in
        if negb (valid_header_value location.2)
        then (users', Server.internal_server_error)
        else if strict_eq_string result "already exists"
        then (users', Server.send_info 303 [location] "EXISTS"
                        ("user " ++ id ++ " already exists"))
        else (users', Server.send_token 201 [location] "CREATED"
                        (Server.createAuthToken this env id))
    | Rejected _ => (users', Server.internal_server_error)
    | Pending => (users', NoResponse)
    end.
Proof.
  intros Hid Hne Hpw Hpne Hbody. unfold Server.createUser.
  rewrite Hid, Hpw. simpl truthy.
  rewrite (eqb_empty_false _ Hne), (eqb_empty_false _ Hpne), Hbody. reflexivity.
Qed.

(** X14. Creating an account and using the token of the answer: for an
    identifier the collection does not have, a port that is a port number and
    a [Location] value Node accepts, the create-account handler answers 201
    with the [Location] of the new resource
    ([protocol://hostname:port/users/id]) and a token; presented as
    [Bearer] before the timeout, that token makes the fetch-profile handler
    answer 200 with the profile as it was sent (less any field named [_id]
    or [_pw]). *)
Theorem created_account_is_fetched_with_its_token `{Bcrypt} `{Jws}
    (this : Server.Server) (env env' : Env) (users : list Doc)
    (create fetch : Request) (id password : string) (fields : Doc) :
  decodeURIComponent (params_id create) = Some id -> id <> "" ->
  decodeURIComponent (query_pw create) = Some password -> password <> "" ->
  body create = JsObject fields -> absent id users ->
  0 <= Server.port this <= 65535 ->
  valid_header_value (Server.getRequestBaseUrl this create ++ "users/" ++ id) = true ->
  decodeURIComponent (params_id fetch) = Some id ->
  authorization fetch
  = Some ("Bearer " ++ to_string (get_prop
            (payload_of (Server.createUser this env users create).2) "authToken")) ->
  now env' < now env + Server.authTimeout this ->
  let created := Server.createUser this env users create in
  status_of created.2 = Some 201
  /\ headers_of created.2
     = [("Location", protocol create ++ "://" ++ hostname create ++ ":"
                     ++ string_of_Z (Server.port this) ++ "/users/" ++ id)]
  /\ created.1 = (users ++ [new_doc (salt env) id password fields])%list
  /\ Server.getUser this env' created.1 fetch
     = (created.1, Server.json (JsObject (delete "_pw" (delete "_id" fields)))).
Proof.
  intros Hid Hne Hpw Hpne Hbody Habs Hport Hvalid Hfid Hauth Hnow created.
  subst created.
  assert (Hcreated : Server.createUser this env users create
    = ((users ++ [new_doc (salt env) id password fields])%list,
       Server.send_token 201
         [("Location", Server.getRequestBaseUrl this create ++ "users/" ++ id)]
         "CREATED" (Server.createAuthToken this env id))).
  { rewrite (createUser_passes_guard this env users create id password
               Hid Hne Hpw Hpne) by (rewrite Hbody; reflexivity).
    rewrite Hbody, (createUser_fresh users (salt env) id password fields Hne Hpne Habs).
    cbv zeta. cbn [snd]. rewrite Hvalid. reflexivity. }
  rewrite Hcreated in Hauth |- *. cbn [fst snd] in Hauth |- *.
  split; [reflexivity|]. split.
  { unfold headers_of, Server.send_token, Server.getRequestBaseUrl. simpl.
    do 2 f_equal. rewrite !string_app_assoc. reflexivity. }
  split; [reflexivity|].
  assert (Htoken : to_string (get_prop (payload_of
            (Server.send_token 201
               [("Location", Server.getRequestBaseUrl this create ++ "users/" ++ id)]
               "CREATED" (Server.createAuthToken this env id))) "authToken")
          = Server.createAuthToken this env id).
  { unfold Server.send_token, payload_of, get_prop. simpl.
    rewrite lookup_insert_ne by discriminate. rewrite lookup_insert_eq. reflexivity. }
  rewrite Htoken in Hauth.
  rewrite (getUser_minted_token this env env' _ fetch id id Hfid Hne Hauth Hnow).
  rewrite (getUser_one _ id (new_doc (salt env) id password fields) Hne
             (find_created users (salt env) id password fields Habs)).
  simpl. unfold new_doc. rewrite delete_insert_ne by discriminate.
  rewrite delete_insert_eq, delete_insert_eq. reflexivity.
Qed.


(** The exception of X10 at work: for a new identifier whose [Location]
    value Node refuses, the account is created and the answer is 500. *)
Lemma created_but_answered_500 `{Bcrypt} `{Jws} (this : Server.Server) (env : Env)
    (users : list Doc) (req : Request) (id password : string) (fields : Doc) :
  decodeURIComponent (params_id req) = Some id -> id <> "" ->
  decodeURIComponent (query_pw req) = Some password -> password <> "" ->
  body req = JsObject fields -> absent id users ->
  valid_header_value (Server.getRequestBaseUrl this req ++ "users/" ++ id) = false ->
  Server.createUser this env users req
  = ((users ++ [new_doc (salt env) id password fields])%list,
     Server.internal_server_error).
Proof.
  intros Hid Hne Hpw Hpne Hbody Habs Hinvalid.
  rewrite (createUser_passes_guard this env users req id password
             Hid Hne Hpw Hpne) by (rewrite Hbody; reflexivity).
  rewrite Hbody, (createUser_fresh users (salt env) id password fields Hne Hpne Habs).
  cbv zeta. cbn [snd]. rewrite Hinvalid. reflexivity.
Qed.

(** X16. Logging in and using the token: when the stored hash of the
    account verifies the password of the request, the log-in handler answers
    200 with a token, and that token, presented as [Bearer] before the
    timeout, makes the fetch-profile handler answer 200 with the stored
    profile. When [bcrypt] refuses the password the answer is 401 and carries
    no token. *)
Theorem logIn_token_fetches_profile `{Bcrypt} `{Jws} (this : Server.Server)
    (env env' : Env) (users : list Doc) (login fetch : Request)
    (id password hashed : string) (fields doc : Doc) :
  decodeURIComponent (params_id login) = Some id -> id <> "" ->
  body login = JsObject fields -> fields !! "pw" = Some (JsString password) ->
  password <> "" ->
  UserDatabase.find users id = [doc] -> doc !! "_pw" = Some (JsString hashed) ->
  decodeURIComponent (params_id fetch) = Some id ->
  authorization fetch
  = Some ("Bearer " ++ to_string (get_prop
            (payload_of (Server.logIn this env users login).2) "authToken")) ->
  now env' < now env + Server.authTimeout this ->
  (bcrypt_compare password hashed = true ->
   Server.logIn this env users login
   = (users, Server.send_token 200 [] "OK" (Server.createAuthToken this env id))
   /\ Server.getUser this env' users fetch
      = (users, Server.json (JsObject (delete "_pw" (delete "_id" doc)))))
  /\ (bcrypt_compare password hashed = false ->
      status_of (Server.logIn this env users login).2 = Some 401
      /\ get_prop (payload_of (Server.logIn this env users login).2) "authToken"
         = JsUndefined).
Proof.
  intros Hid Hne Hbody Hfield Hpne Hfind Hpw Hfid Hauth Hnow.
  pose proof (logIn_checks_password this env users login id password fields
                Hid Hne Hbody Hfield Hpne) as Hlogin.
  rewrite (checkPassword_one users id password hashed doc Hne Hpne Hfind Hpw)
    in Hlogin.
  split; intros Hverdict; rewrite Hverdict in Hlogin; simpl in Hlogin.
  - split; [exact Hlogin|].
    rewrite Hlogin in Hauth. cbn [snd] in Hauth.
    assert (Htoken : to_string (get_prop (payload_of
              (Server.send_token 200 [] "OK" (Server.createAuthToken this env id)))
              "authToken") = Server.createAuthToken this env id).
    { unfold Server.send_token, payload_of, get_prop. simpl.
      rewrite lookup_insert_ne by discriminate. rewrite lookup_insert_eq. reflexivity. }
    rewrite Htoken in Hauth.
    rewrite (getUser_minted_token this env env' users fetch id id Hfid Hne Hauth Hnow).
    rewrite (getUser_one users id doc Hne Hfind). reflexivity.
  - rewrite Hlogin. cbn [snd]. split; [reflexivity|].
    apply no_reserved_field_in_info; discriminate.
Qed.

(** X17. A log-in request without a password is answered exactly as one
    with a wrong password: when the body has no truthy [pw], the answer is
    the same 401 response, byte for byte, that a password refused by
    [bcrypt] gets for the same account. *)
Theorem missing_pw_is_answered_as_wrong_pw `{Bcrypt} `{Jws} (this : Server.Server)
    (env : Env) (users : list Doc) (without wrong : Request)
    (id password hashed : string) (fields doc : Doc) :
  decodeURIComponent (params_id without) = Some id ->
  decodeURIComponent (params_id wrong) = Some id -> id <> "" ->
  truthy (body without) = true -> truthy (get_prop (body without) "pw") = false ->
  body wrong = JsObject fields -> fields !! "pw" = Some (JsString password) ->
  password <> "" ->
  UserDatabase.find users id = [doc] -> doc !! "_pw" = Some (JsString hashed) ->
  bcrypt_compare password hashed = false ->
  Server.logIn this env users without = Server.logIn this env users wrong
  /\ status_of (Server.logIn this env users without).2 = Some 401.
Proof.
  intros Hwid Hid Hne Hbody Hnopw Hwbody Hfield Hpne Hfind Hpw Hverdict.
  assert (Hwithout : Server.logIn this env users without
    = (users, Server.send_info 401 [] "ERROR_UNAUTHORIZED"
                ("/users/" ++ id ++ "/auth requires a valid 'pw' password query parameter"))).
  { unfold Server.logIn. rewrite Hwid. simpl truthy.
    rewrite (eqb_empty_false _ Hne), Hbody, Hnopw. reflexivity. }
  rewrite Hwithout. split; [|reflexivity].
  rewrite (logIn_checks_password this env users wrong id password fields
             Hid Hne Hwbody Hfield Hpne).
  rewrite (checkPassword_one users id password hashed doc Hne Hpne Hfind Hpw).
  rewrite Hverdict. reflexivity.
Qed.

(** X18. An expired token opens nothing: once [authTimeout] seconds have
    passed since a token was minted, the fetch-profile handler answers 401
    to it, whether or not the account exists, and reads nothing. *)
Theorem expired_token_is_unauthorized `{Jws} (this : Server.Server) (env0 env : Env)
    (users : list Doc) (req : Request) (id holder : string) :
  decodeURIComponent (params_id req) = Some id -> id <> "" ->
  authorization req = Some ("Bearer " ++ Server.createAuthToken this env0 holder) ->
  now env0 + Server.authTimeout this <= now env ->
  Server.getUser this env users req = (users, Server.unauthorized id)
  /\ status_of (Server.getUser this env users req).2 = Some 401.
Proof.
  intros Hid Hne Hauth Hnow.
  destruct (createAuthToken_shape this env0 holder) as [Htok Hns].
  assert (Hout : Server.getUser this env users req = (users, Server.unauthorized id)).
  { rewrite (getUser_bearer_header this env users req id "Bearer"
               (Server.createAuthToken this env0 holder) Hid Hne Hauth eq_refl Htok Hns).
    unfold Server.getUser_with_token. rewrite checkAuthToken_minted.
    destruct (Z.ltb_spec (now env) (now env0 + Server.authTimeout this)); [lia|].
    reflexivity. }
  split; [exact Hout|]. rewrite Hout. reflexivity.
Qed.

(** X19. Only the first two pieces of the [Authorization] header count:
    whatever follows a second space is ignored, so a header with trailing
    words is treated as the header without them. *)
Theorem header_tail_is_ignored `{Jws} (this : Server.Server) (env : Env)
    (users : list Doc) (req req' : Request) (scheme token tail : string) :
  params_id req = params_id req' ->
  no_space scheme = true -> no_space token = true ->
  authorization req = Some (scheme ++ " " ++ token) ->
  authorization req' = Some (scheme ++ " " ++ token ++ " " ++ tail) ->
  Server.getUser this env users req' = Server.getUser this env users req.
Proof.
  intros Hsame Hs Ht Hauth Hauth'. unfold Server.getUser.
  rewrite Hsame, Hauth, Hauth'.
  destruct (decodeURIComponent (params_id req')) as [id|]; [|reflexivity].
  destruct (negb (truthy (JsString id))); [reflexivity|].
  change (scheme ++ " " ++ token ++ " " ++ tail)
    with (scheme ++ String " " (token ++ String " " tail)).
  change (scheme ++ " " ++ token) with (scheme ++ String " " token).
  rewrite !(split_scheme_token scheme _ Hs), (split_scheme_token token tail Ht).
  rewrite (split_no_space token Ht).
  cbn [Server.index lookup list_lookup to_string].
  assert (Hne : forall rest, truthy (JsString (scheme ++ String " " rest)) = true).
  { intros rest. destruct scheme; reflexivity. }
  rewrite !Hne. reflexivity.
Qed.

(** ** The start-up script *)

Lemma string_app_inv_head (a b c : string) : a ++ b = a ++ c -> b = c.
Proof.
  induction a as [|x a IH]; [trivial|].
  intros Heq. apply IH. injection Heq as Heq. exact Heq.
Qed.

(** X21. The key and the certificate are read from the directory argument
    with the file name appended and no separator added: only for the
    argument [.] is the key path [<argument>/key.pem]; any other directory
    must end in a slash itself. *)
Theorem key_path_gets_a_slash_only_for_dot (args_port args_authTimeout : Z)
    (args_sslDir : string) :
  let server := Main.server args_port args_authTimeout args_sslDir in
  (Server.keyPath server = args_sslDir ++ "/key.pem" <-> args_sslDir = ".")
  /\ (Server.certPath server = args_sslDir ++ "/cert.pem" <-> args_sslDir = ".")
  /\ (args_sslDir <> "." ->
      Server.keyPath server = args_sslDir ++ "key.pem"
      /\ Server.certPath server = args_sslDir ++ "cert.pem").
Proof.
  intros server. subst server. unfold Main.server, Main.sslDir, Server.new. simpl.
  destruct (String.eqb_spec args_sslDir ".") as [->|Hne].
  - repeat split; intros; try reflexivity; contradiction.
  - split; [|split].
    + split; [|contradiction]. intros Heq. apply string_app_inv_head in Heq.
      discriminate Heq.
    + split; [|contradiction]. intros Heq. apply string_app_inv_head in Heq.
      discriminate Heq.
    + intros _. split; reflexivity.
Qed.

(** ** More on the store and the handlers *)

Lemma createUsers_hashes_are_strings `{Bcrypt} (calls : list Creation) (users : list Doc) :
  hashes_are_strings users -> hashes_are_strings (createUsers users calls).
Proof.
  revert users. induction calls as [|call calls IH]; intros users Hwf; [exact Hwf|].
  simpl. apply IH.
  destruct (createUser_cases users (creation_salt call) (creation_id call)
              (creation_password call) (creation_data call))
    as [[Hsame _] | (id_s & password_s & fields & _ & _ & _ & _ & _ & _ & Hnew)].
  - rewrite Hsame. exact Hwf.
  - rewrite Hnew. simpl. unfold hashes_are_strings. apply Forall_app. split; [exact Hwf|].
    constructor; [|constructor]. eexists. unfold new_doc. apply lookup_insert_eq.
Qed.

(** X6. On a collection built from the empty one by calls of [createUser],
    [checkPassword] always settles: every document holds a string hash, so
    the comparison of [bcrypt] is never left without an answer. *)
Theorem checkPassword_settles_after_creation `{Bcrypt} (calls : list Creation)
    (id password : JsValue) :
  (UserDatabase.checkPassword (createUsers [] calls) id password).2 <> Pending.
Proof.
  assert (Hwf : hashes_are_strings (createUsers [] calls))
    by (apply createUsers_hashes_are_strings; constructor).
  unfold UserDatabase.checkPassword, UserDatabase.invalid_parameters,
    UserDatabase.multiple_docs.
  destruct (negb (truthy id) || negb (is_string id) || negb (truthy password)
            || negb (is_string password)); [discriminate|].
  destruct id as [| | | |id_s|]; try discriminate.
  destruct password as [| | | |password_s|]; try discriminate.
  destruct (UserDatabase.find (createUsers [] calls) id_s) as [|doc [|doc' more]] eqn:Hfind;
    try discriminate.
  assert (Hin : In doc (createUsers [] calls)).
  { assert (Hin' : In doc (UserDatabase.find (createUsers [] calls) id_s))
      by (rewrite Hfind; left; reflexivity).
    unfold UserDatabase.find in Hin'. apply List.filter_In in Hin'. apply Hin'. }
  unfold hashes_are_strings in Hwf. rewrite List.Forall_forall in Hwf.
  destruct (Hwf doc Hin) as [hashed Hpw].
  unfold get_prop. rewrite Hpw. simpl.
  destruct (bcrypt_compare password_s hashed); discriminate.
Qed.

(** X20. The status codes of the three operations. For every request the
    create-account handler answers 201, 303, 400 or 500; the log-in handler
    200, 400, 401, 404 or 500; the fetch-profile handler 200, 400, 401, 404
    or 500; or the handler sends nothing. *)
Theorem handler_status_codes `{Bcrypt} `{Jws} (this : Server.Server) (env : Env)
    (users : list Doc) (req : Request) :
  In (status_of (Server.createUser this env users req).2)
     [None; Some 201; Some 303; Some 400; Some 500]
  /\ In (status_of (Server.logIn this env users req).2)
        [None; Some 200; Some 400; Some 401; Some 404; Some 500]
  /\ In (status_of (Server.getUser this env users req).2)
        [None; Some 200; Some 400; Some 401; Some 404; Some 500].
Proof.
  split; [|split].
  - unfold Server.createUser.
    destruct (decodeURIComponent (params_id req)) as [id|]; [|simpl; tauto].
    destruct (decodeURIComponent (query_pw req)) as [password|]; [|simpl; tauto].
    destruct (negb (truthy (JsString id)) || negb (truthy (JsString password))
              || negb (truthy (body req))); [simpl; tauto|].
    destruct (UserDatabase.createUser users (salt env) (JsString id)
                (JsString password) (body req)) as [users' [result| |]];
      [|simpl; tauto | simpl; tauto].
    cbv zeta. cbn [snd].
    destruct (negb (valid_header_value _)); [simpl; tauto|].
    destruct (strict_eq_string result "already exists"); simpl; tauto.
  - unfold Server.logIn.
    destruct (decodeURIComponent (params_id req)) as [id|]; [|simpl; tauto].
    destruct (negb (truthy (JsString id)) || negb (truthy (body req)));
      [simpl; tauto|].
    destruct (negb (truthy (get_prop (body req) "pw"))); [simpl; tauto|].
    destruct (UserDatabase.checkPassword users (JsString id) (get_prop (body req) "pw"))
      as [users' [result| |]]; [|simpl; tauto | simpl; tauto].
    destruct (strict_eq_string result "not found"); [simpl; tauto|].
    destruct (strict_eq_bool result false); [simpl; tauto|].
    destruct (strict_eq_bool result true); simpl; tauto.
  - unfold Server.getUser, Server.getUser_with_token.
    destruct (decodeURIComponent (params_id req)) as [id|]; [|simpl; tauto].
    destruct (negb (truthy (JsString id))); [simpl; tauto|].
    destruct (authorization req) as [authValue|]; [|simpl; tauto].
    match goal with |- In (status_of (if ?c then _ else _).2) _ => destruct c end;
      [simpl; tauto|].
    match goal with |- In (status_of (if ?c then _ else _).2) _ => destruct c end;
      [|simpl; tauto].
    destruct (UserDatabase.getUser users (JsString id)) as [users' [result| |]];
      [|simpl; tauto | simpl; tauto].
    destruct (strict_eq_string result "not found"); simpl; tauto.
Qed.

(** * The further properties at concrete requests *)

Lemma decodeURIComponent_without_percent_witness :
  has_char "%" "bob" = false /\ decodeURIComponent (JsString "bob") = Some "bob".
Proof.
  assert (h1 : has_char "%" "bob" = false) by reflexivity.
  exact (conj h1 (decodeURIComponent_without_percent "bob" h1)).
Defined.

Lemma createUser_leaves_other_accounts_witness :
  let users' :=
    (UserDatabase.createUser Sample.users "c2FsdB" (JsString "alice") (JsString "pass")
       (JsObject ∅)).1 in
  JsString "alice" <> JsString "bob"
  /\ (exists added, users' = (Sample.users ++ added)%list /\ (length added <= 1)%nat)
  /\ (UserDatabase.checkPassword users' (JsString "bob") (JsString "secret")).2
     = (UserDatabase.checkPassword Sample.users (JsString "bob") (JsString "secret")).2
  /\ (UserDatabase.getUser users' (JsString "bob")).2
     = (UserDatabase.getUser Sample.users (JsString "bob")).2.
Proof.
  assert (h1 : JsString "alice" <> JsString "bob") by discriminate.
  exact (conj h1
    (@createUser_leaves_other_accounts reference_bcrypt Sample.users "c2FsdB"
       (JsString "alice") (JsString "pass") (JsObject ∅) "bob" (JsString "secret") h1)).
Defined.

Lemma getUser_after_createUser_witness :
  let users' :=
    (UserDatabase.createUser [] "c2FsdA" (JsString "bob") (JsString "secret")
       (JsObject Sample.profile)).1 in
  "bob" <> "" /\ "secret" <> "" /\ absent "bob" []
  /\ Sample.profile !! "_id" = None /\ Sample.profile !! "_pw" = None
  /\ UserDatabase.getUser users' (JsString "bob")
     = (users', Resolved (JsObject Sample.profile)).
Proof.
  assert (h1 : "bob" <> "") by discriminate.
  assert (h2 : "secret" <> "") by discriminate.
  assert (h3 : absent "bob" []) by constructor.
  assert (h4 : Sample.profile !! "_id" = None) by (vm_compute; reflexivity).
  assert (h5 : Sample.profile !! "_pw" = None) by (vm_compute; reflexivity).
  exact (conj h1 (conj h2 (conj h3 (conj h4 (conj h5
    (proj2 (@getUser_after_createUser reference_bcrypt [] "c2FsdA" "bob" "secret"
              Sample.profile h1 h2 h3) h4 h5)))))).
Defined.

Lemma refused_token_stays_refused_witness :
  now Sample.expired <= now Sample2.much_later
  /\ (forall payload nbf,
        jws_verify Server.authSecret Sample.alice_token = Some payload ->
        jwt_nbf payload = Some nbf -> nbf <= now Sample.expired)
  /\ Server.checkAuthToken Sample.this Sample.expired Sample.alice_token = false
  /\ Server.checkAuthToken Sample.this Sample2.much_later Sample.alice_token = false.
Proof.
  assert (h1 : now Sample.expired <= now Sample2.much_later) by (vm_compute; discriminate).
  assert (h2 : forall payload nbf,
            jws_verify Server.authSecret Sample.alice_token = Some payload ->
            jwt_nbf payload = Some nbf -> nbf <= now Sample.expired).
  { intros payload nbf Hverify Hnbf. vm_compute in Hverify.
    injection Hverify as <-. discriminate Hnbf. }
  assert (h3 : Server.checkAuthToken Sample.this Sample.expired Sample.alice_token = false)
    by (vm_compute; reflexivity).
  exact (conj h1 (conj h2 (conj h3
    (@refused_token_stays_refused reference_jws Sample.this Sample.expired
       Sample2.much_later Sample.alice_token h1 h2 h3)))).
Defined.

Lemma createAuthToken_injective_witness :
  Server.createAuthToken Sample.this Sample.issued "alice" = Sample.alice_token
  /\ "alice" = "alice" /\ now Sample.issued = now Sample.issued.
Proof.
  assert (h1 : Server.createAuthToken Sample.this Sample.issued "alice"
               = Server.createAuthToken Sample.this Sample.issued "alice") by reflexivity.
  exact (conj h1
    (@createAuthToken_injective reference_jws Sample.this Sample.issued Sample.issued
       "alice" "alice" h1)).
Defined.

Lemma nonpositive_authTimeout_refuses_all_witness :
  Server.authTimeout Sample2.no_timeout <= 0 /\ now Sample.issued <= now Sample.issued
  /\ Server.checkAuthToken Sample2.no_timeout Sample.issued
       (Server.createAuthToken Sample2.no_timeout Sample.issued "alice") = false.
Proof.
  assert (h1 : Server.authTimeout Sample2.no_timeout <= 0) by (vm_compute; discriminate).
  assert (h2 : now Sample.issued <= now Sample.issued) by (vm_compute; discriminate).
  exact (conj h1 (conj h2
    (@nonpositive_authTimeout_refuses_all reference_jws Sample2.no_timeout Sample.issued
       Sample.issued "alice" h1 h2))).
Defined.

Lemma only_account_creation_writes_witness :
  let req := Sample.create "bob" "secret" in
  status_of (Server.createUser Sample.this Sample.issued [] req).2 = Some 201
  /\ exists doc, (Server.createUser Sample.this Sample.issued [] req).1 = ([] ++ [doc])%list.
Proof.
  intros req.
  assert (h1 : status_of (Server.createUser Sample.this Sample.issued [] req).2 = Some 201)
    by (vm_compute; reflexivity).
  exact (conj h1
    (proj1 (proj2 (proj2 (proj2 (@only_account_creation_writes reference_bcrypt
                                   reference_jws Sample.this Sample.issued [] req)))) h1)).
Defined.

Lemma responses_never_carry_the_hash_witness :
  let req := Sample.fetch "bob" (Some ("Bearer " ++ Sample.alice_token)) in
  ("_pw" = "_pw" \/ "_pw" = "_id")
  /\ get_prop (payload_of (Server.getUser Sample.this Sample.later Sample.users req).2)
       "_pw" = JsUndefined.
Proof.
  intros req.
  assert (h1 : "_pw" = "_pw" \/ "_pw" = "_id") by (left; reflexivity).
  exact (conj h1
    (proj2 (proj2 (@responses_never_carry_the_hash reference_bcrypt reference_jws
                     Sample.this Sample.later Sample.users req "_pw" h1)))).
Defined.

Lemma trailing_percent_id_throws_witness :
  params_id Sample2.percent = JsString ("100" ++ "%")
  /\ Server.createUser Sample.this Sample.later Sample.users Sample2.percent
     = (Sample.users, Threw "URIError")
  /\ Server.logIn Sample.this Sample.later Sample.users Sample2.percent
     = (Sample.users, Threw "URIError")
  /\ Server.getUser Sample.this Sample.later Sample.users Sample2.percent
     = (Sample.users, Threw "URIError").
Proof.
  assert (h1 : params_id Sample2.percent = JsString ("100" ++ "%")) by reflexivity.
  exact (conj h1
    (@trailing_percent_id_throws reference_bcrypt reference_jws Sample.this Sample.later
       Sample.users Sample2.percent "100" h1)).
Defined.


Lemma created_account_is_fetched_with_its_token_witness :
  let create := Sample.create "bob" "secret" in
  let fetch :=
    Sample.fetch "bob" (Some ("Bearer " ++ Sample2.issued_token Sample2.created.2)) in
  (decodeURIComponent (params_id create) = Some "bob" /\ "bob" <> ""
   /\ decodeURIComponent (query_pw create) = Some "secret" /\ "secret" <> ""
   /\ body create = JsObject Sample.profile /\ absent "bob" []
   /\ 0 <= Server.port Sample.this <= 65535
   /\ valid_header_value (Server.getRequestBaseUrl Sample.this create ++ "users/" ++ "bob")
      = true
   /\ decodeURIComponent (params_id fetch) = Some "bob"
   /\ now Sample.later < now Sample.issued + Server.authTimeout Sample.this)
  /\ status_of Sample2.created.2 = Some 201
  /\ headers_of Sample2.created.2 = [("Location", "https://localhost:8443/users/bob")]
  /\ Server.getUser Sample.this Sample.later Sample2.created.1 fetch
     = (Sample2.created.1, Server.json (JsObject Sample.profile)).
Proof.
  intros create fetch.
  assert (h1 : decodeURIComponent (params_id create) = Some "bob") by reflexivity.
  assert (h2 : "bob" <> "") by discriminate.
  assert (h3 : decodeURIComponent (query_pw create) = Some "secret") by reflexivity.
  assert (h4 : "secret" <> "") by discriminate.
  assert (h5 : body create = JsObject Sample.profile) by reflexivity.
  assert (h6 : absent "bob" []) by constructor.
  assert (hp : 0 <= Server.port Sample.this <= 65535)
    by (vm_compute; split; discriminate).
  assert (hv : valid_header_value
                 (Server.getRequestBaseUrl Sample.this create ++ "users/" ++ "bob") = true)
    by (vm_compute; reflexivity).
  assert (h7 : decodeURIComponent (params_id fetch) = Some "bob") by reflexivity.
  assert (h8 : authorization fetch
               = Some ("Bearer " ++ to_string (get_prop (payload_of
                   (Server.createUser Sample.this Sample.issued [] create).2)
                   "authToken"))) by (vm_compute; reflexivity).
  assert (h9 : now Sample.later < now Sample.issued + Server.authTimeout Sample.this)
    by (vm_compute; reflexivity).
  pose proof (@created_account_is_fetched_with_its_token reference_bcrypt reference_jws
                Sample.this Sample.issued Sample.later [] create fetch "bob" "secret"
                Sample.profile h1 h2 h3 h4 h5 h6 hp hv h7 h8 h9)
    as (Hstatus & Hheaders & _ & Hfetch).
  exact (conj (conj h1 (conj h2 (conj h3 (conj h4 (conj h5 (conj h6 (conj hp (conj hv
                 (conj h7 h9)))))))))
    (conj Hstatus (conj Hheaders Hfetch))).
Defined.


Lemma logIn_token_fetches_profile_witness :
  let login := Sample.login "bob" "secret" in
  let fetch :=
    Sample.fetch "bob"
      (Some ("Bearer " ++ Sample2.issued_token
                            (Server.logIn Sample.this Sample.issued Sample.users login).2)) in
  let fields : Doc := <["pw" := JsString "secret"]> ∅ in
  (decodeURIComponent (params_id login) = Some "bob" /\ "bob" <> ""
   /\ body login = JsObject fields /\ fields !! "pw" = Some (JsString "secret")
   /\ "secret" <> ""
   /\ UserDatabase.find Sample.users "bob" = [Sample.bob_doc]
   /\ Sample.bob_doc !! "_pw" = Some (JsString "secret")
   /\ decodeURIComponent (params_id fetch) = Some "bob"
   /\ now Sample.later < now Sample.issued + Server.authTimeout Sample.this
   /\ bcrypt_compare "secret" "secret" = true)
  /\ Server.logIn Sample.this Sample.issued Sample.users login
     = (Sample.users, Server.send_token 200 [] "OK"
                        (Server.createAuthToken Sample.this Sample.issued "bob"))
  /\ Server.getUser Sample.this Sample.later Sample.users fetch
     = (Sample.users, Server.json (JsObject (delete "_pw" (delete "_id" Sample.bob_doc)))).
Proof.
  intros login fetch fields.
  assert (h1 : decodeURIComponent (params_id login) = Some "bob") by reflexivity.
  assert (h2 : "bob" <> "") by discriminate.
  assert (h3 : body login = JsObject fields) by reflexivity.
  assert (h4 : fields !! "pw" = Some (JsString "secret")) by (vm_compute; reflexivity).
  assert (h5 : "secret" <> "") by discriminate.
  assert (h6 : UserDatabase.find Sample.users "bob" = [Sample.bob_doc])
    by (vm_compute; reflexivity).
  assert (h7 : Sample.bob_doc !! "_pw" = Some (JsString "secret"))
    by (vm_compute; reflexivity).
  assert (h8 : decodeURIComponent (params_id fetch) = Some "bob") by reflexivity.
  assert (h9 : authorization fetch
               = Some ("Bearer " ++ to_string (get_prop (payload_of
                   (Server.logIn Sample.this Sample.issued Sample.users login).2)
                   "authToken"))) by (vm_compute; reflexivity).
  assert (h10 : now Sample.later < now Sample.issued + Server.authTimeout Sample.this)
    by (vm_compute; reflexivity).
  assert (h11 : bcrypt_compare "secret" "secret" = true) by reflexivity.
  exact (conj
    (conj h1 (conj h2 (conj h3 (conj h4 (conj h5 (conj h6 (conj h7 (conj h8
       (conj h10 h11)))))))))
    (proj1 (@logIn_token_fetches_profile reference_bcrypt reference_jws Sample.this
              Sample.issued Sample.later Sample.users login fetch "bob" "secret"
              "secret" fields Sample.bob_doc h1 h2 h3 h4 h5 h6 h7 h8 h9 h10) h11)).
Defined.

Lemma missing_pw_is_answered_as_wrong_pw_witness :
  let without := Sample2.login_without_pw in
  let wrong := Sample.login "bob" "wrong" in
  let fields : Doc := <["pw" := JsString "wrong"]> ∅ in
  (decodeURIComponent (params_id without) = Some "bob"
   /\ decodeURIComponent (params_id wrong) = Some "bob" /\ "bob" <> ""
   /\ truthy (body without) = true /\ truthy (get_prop (body without) "pw") = false
   /\ body wrong = JsObject fields /\ fields !! "pw" = Some (JsString "wrong")
   /\ "wrong" <> ""
   /\ UserDatabase.find Sample.users "bob" = [Sample.bob_doc]
   /\ Sample.bob_doc !! "_pw" = Some (JsString "secret")
   /\ bcrypt_compare "wrong" "secret" = false)
  /\ Server.logIn Sample.this Sample.later Sample.users without
     = Server.logIn Sample.this Sample.later Sample.users wrong
  /\ status_of (Server.logIn Sample.this Sample.later Sample.users without).2 = Some 401.
Proof.
  intros without wrong fields.
  assert (h1 : decodeURIComponent (params_id without) = Some "bob") by reflexivity.
  assert (h2 : decodeURIComponent (params_id wrong) = Some "bob") by reflexivity.
  assert (h3 : "bob" <> "") by discriminate.
  assert (h4 : truthy (body without) = true) by reflexivity.
  assert (h5 : truthy (get_prop (body without) "pw") = false) by (vm_compute; reflexivity).
  assert (h6 : body wrong = JsObject fields) by reflexivity.
  assert (h7 : fields !! "pw" = Some (JsString "wrong")) by (vm_compute; reflexivity).
  assert (h8 : "wrong" <> "") by discriminate.
  assert (h9 : UserDatabase.find Sample.users "bob" = [Sample.bob_doc])
    by (vm_compute; reflexivity).
  assert (h10 : Sample.bob_doc !! "_pw" = Some (JsString "secret"))
    by (vm_compute; reflexivity).
  assert (h11 : bcrypt_compare "wrong" "secret" = false) by reflexivity.
  exact (conj
    (conj h1 (conj h2 (conj h3 (conj h4 (conj h5 (conj h6 (conj h7 (conj h8
       (conj h9 (conj h10 h11))))))))))
    (@missing_pw_is_answered_as_wrong_pw reference_bcrypt reference_jws Sample.this
       Sample.later Sample.users without wrong "bob" "wrong" "secret" fields
       Sample.bob_doc h1 h2 h3 h4 h5 h6 h7 h8 h9 h10 h11)).
Defined.

Lemma expired_token_is_unauthorized_witness :
  let req := Sample.fetch "bob" (Some ("Bearer " ++ Sample.alice_token)) in
  (decodeURIComponent (params_id req) = Some "bob" /\ "bob" <> ""
   /\ now Sample.issued + Server.authTimeout Sample.this <= now Sample.expired)
  /\ Server.getUser Sample.this Sample.expired Sample.users req
     = (Sample.users, Server.unauthorized "bob")
  /\ status_of (Server.getUser Sample.this Sample.expired Sample.users req).2 = Some 401.
Proof.
  intros req.
  assert (h1 : decodeURIComponent (params_id req) = Some "bob") by reflexivity.
  assert (h2 : "bob" <> "") by discriminate.
  assert (h3 : now Sample.issued + Server.authTimeout Sample.this <= now Sample.expired)
    by (vm_compute; discriminate).
  exact (conj (conj h1 (conj h2 h3))
    (@expired_token_is_unauthorized reference_jws Sample.this Sample.issued
       Sample.expired Sample.users req "bob" "alice" h1 h2 eq_refl h3)).
Defined.

Lemma header_tail_is_ignored_witness :
  let req := Sample.fetch "bob" (Some ("Bearer " ++ "abc")) in
  let req' := Sample.fetch "bob" (Some ("Bearer " ++ "abc" ++ " " ++ "and more")) in
  (params_id req = params_id req' /\ no_space "Bearer" = true /\ no_space "abc" = true)
  /\ Server.getUser Sample.this Sample.later Sample.users req'
     = Server.getUser Sample.this Sample.later Sample.users req.
Proof.
  intros req req'.
  assert (h1 : params_id req = params_id req') by reflexivity.
  assert (h2 : no_space "Bearer" = true) by reflexivity.
  assert (h3 : no_space "abc" = true) by reflexivity.
  exact (conj (conj h1 (conj h2 h3))
    (@header_tail_is_ignored reference_jws Sample.this Sample.later Sample.users
       req req' "Bearer" "abc" "and more" h1 h2 h3 eq_refl eq_refl)).
Defined.

Lemma key_path_gets_a_slash_only_for_dot_witness :
  "certs" <> "."
  /\ Server.keyPath (Main.server 8443 300 "certs") = "certskey.pem"
  /\ Server.certPath (Main.server 8443 300 "certs") = "certscert.pem".
Proof.
  assert (h1 : "certs" <> ".") by discriminate.
  exact (conj h1
    (proj2 (proj2 (key_path_gets_a_slash_only_for_dot 8443 300 "certs")) h1)).
Defined.

Lemma invalid_parameters_iff_guard_witness :
  truthy (JsString "") && is_string (JsString "") = false
  /\ UserDatabase.getUser Sample.users (JsString "")
     = (Sample.users, Rejected "Invalid parameters").
Proof.
  assert (h1 : truthy (JsString "") && is_string (JsString "") = false) by reflexivity.
  exact (conj h1
    (proj2 (proj1 (@invalid_parameters_iff_guard reference_bcrypt Sample.users "c2FsdA"
                     (JsString "") (JsString "secret") (JsObject ∅))) h1)).
Defined.
